(** * SQL statement generators of [dbmeta/db_utils.go]

    A shallow embedding of the seven statement generators and of the three
    key-inspection helpers, followed by the properties of the generated text.

    Conventions of the embedding:
    - a Go [string] is a [string]; [bytes.Buffer] is the string written so
      far and [buf.WriteString s] appends [s] to it;
    - a Go [int] is a [Z].  Every counter of the file ranges between [0] and
      [2 * len(columns) + 2], and the length of a slice is far below [2^62],
      so no addition of the file can wrap;
    - a Go [error] is [option string]: [None] is [nil], [Some msg] is the
      value [fmt.Errorf] builds, whose [Error()] text is [msg];
    - [for i, col := range cols] is [range body 0 cols s0], which threads the
      variables the body assigns through the columns, in order. *)

From Stdlib Require Import ZArith List Bool Lia.
From Stdlib Require Import Strings.String Strings.Ascii Numbers.DecimalString.
Import ListNotations.

Open Scope string_scope.
Open Scope Z_scope.

Module dbmeta.

(** ** Metadata views *)

(** Modelled from the spec: the interfaces [ColumnMeta] and [DbTableMeta] are
    declared in another file of the package; section 6 of the specification
    gives the accessors the generators call.  A view is the record of what
    its accessors return. *)
Record ColumnMeta : Type := mkColumn {
  Name : string;
  ColumnType : string;
  IsPrimaryKey : bool;
  IsAutoIncrement : bool
}.

Record DbTableMeta : Type := mkTable {
  TableName : string;
  Columns : list ColumnMeta
}.

(** ** Formatting *)

Definition error : Type := option string.

Definition Errorf (msg : string) : error := Some msg.

(** The verb [%d] of [fmt.Sprintf]. *)
Definition fmt_d (n : Z) : string := NilZero.string_of_int (Z.to_int n).

(** The double-quote character around the table name. *)
Definition dquote : string := String "034"%char EmptyString.

(** ** Loops *)

Fixpoint range {S : Type} (body : Z -> ColumnMeta -> S -> S)
         (i : Z) (cols : list ColumnMeta) (s : S) : S :=
  match cols with
  | [] => s
  | col :: rest => range body (i + 1) rest (body i col s)
  end.

(** ** Key inspection helpers *)

Definition PrimaryKeyCount (dbTable : DbTableMeta) : Z :=
  range (fun _ col primaryKeys =>
           if IsPrimaryKey col then primaryKeys + 1 else primaryKeys)
        0 (Columns dbTable) 0.

Definition PrimaryKeyNames (dbTable : DbTableMeta) : list string :=
  range (fun _ col primaryKeyNames =>
           if IsPrimaryKey col then primaryKeyNames ++ [Name col]
           else primaryKeyNames)%list
        0 (Columns dbTable) [].

Definition NonPrimaryKeyNames (dbTable : DbTableMeta) : list string :=
  range (fun _ col primaryKeyNames =>
           if negb (IsPrimaryKey col) then primaryKeyNames ++ [Name col]
           else primaryKeyNames)%list
        0 (Columns dbTable) [].

(** ** Statement generators *)

(** *** Hard delete *)

Definition hardDelete_body (namedParams : bool) (primaryCnt : Z)
           (_ : Z) (col : ColumnMeta) (st : string * Z) : string * Z :=
  let '(buf, addedKey) := st in
  if IsPrimaryKey col then
    let param :=
      if namedParams then "@" ++ Name col ++ "_" ++ fmt_d addedKey
      else "$" ++ fmt_d addedKey in
    let buf := buf ++ (" " ++ Name col ++ " = " ++ param) in
    let addedKey := addedKey + 1 in
    let buf := if addedKey <? primaryCnt then buf ++ " AND" else buf in
    (buf, addedKey)
  else (buf, addedKey).

Definition GenerateHardDeleteSQL (dbTable : DbTableMeta) (namedParams : bool)
  : string * error :=
  let primaryCnt := PrimaryKeyCount dbTable in
  if primaryCnt =? 0 then
    (EmptyString,
     Errorf ("table " ++ TableName dbTable
             ++ " does not have a primary key, cannot generate sql"))
  else
    let buf := "DELETE FROM " ++ dquote ++ TableName dbTable ++ dquote ++ " where" in
    let '(buf, _) :=
      range (hardDelete_body namedParams primaryCnt) 0 (Columns dbTable) (buf, 1) in
    (buf, None).

(** *** Soft delete *)

Definition softDelete_set_body (namedParams : bool)
           (_ : Z) (col : ColumnMeta) (st : string * Z) : string * Z :=
  let '(buf, setCol) := st in
  if negb (Name col =? "deleted_at")%string && negb (Name col =? "DeletedAt")%string
  then (buf, setCol)
  else
    let buf := if negb (setCol =? 1) then buf ++ "," else buf in
    let param :=
      if namedParams then "@upd_" ++ Name col ++ "_" ++ fmt_d setCol
      else "$" ++ fmt_d setCol in
    let buf := buf ++ (" " ++ Name col ++ " = " ++ param) in
    (buf, setCol + 1).

Definition softDelete_where_body (namedParams : bool)
           (_ : Z) (col : ColumnMeta) (st : string * Z) : string * Z :=
  let '(buf, setCol) := st in
  if IsPrimaryKey col then
    let param :=
      if namedParams then "@" ++ Name col else "$" ++ fmt_d setCol in
    let buf := buf ++ (" " ++ Name col ++ " = " ++ param) in
    (buf, setCol + 1)
  else (buf, setCol).

Definition GenerateSoftDeleteSQL (dbTable : DbTableMeta) (namedParams : bool)
  : string * error :=
  let primaryCnt := PrimaryKeyCount dbTable in
  if primaryCnt =? 0 then
    (EmptyString,
     Errorf ("table " ++ TableName dbTable
             ++ " does not have a primary key, cannot generate sql"))
  else
    let buf := "UPDATE " ++ dquote ++ TableName dbTable ++ dquote ++ " set" in
    let '(buf, setCol) :=
      range (softDelete_set_body namedParams) 0 (Columns dbTable) (buf, 1) in
    if setCol =? 1 then
      (EmptyString,
       Errorf ("table " ++ TableName dbTable
               ++ " does not have a deleted at column, cannot generate sql"))
    else
      let buf := buf ++ " WHERE" in
      let '(buf, _) :=
        range (softDelete_where_body namedParams) 0 (Columns dbTable) (buf, setCol) in
      (buf, None).

(** *** Update *)

Definition update_set_body (namedParams : bool)
           (_ : Z) (col : ColumnMeta) (st : string * Z) : string * Z :=
  let '(buf, setCol) := st in
  if negb (IsPrimaryKey col) then
    let buf := if negb (setCol =? 1) then buf ++ "," else buf in
    let param :=
      if namedParams then "@" ++ Name col else "$" ++ fmt_d setCol in
    let buf := buf ++ (" " ++ Name col ++ " = " ++ param) in
    (buf, setCol + 1)
  else (buf, setCol).

Definition update_where_body (namedParams : bool) (primaryCnt : Z)
           (_ : Z) (col : ColumnMeta) (st : string * Z * Z) : string * Z * Z :=
  let '(buf, setCol, addedKey) := st in
  if IsPrimaryKey col then
    let param :=
      if namedParams then "@where_" ++ Name col
      else "$" ++ fmt_d (addedKey + setCol) in
    let buf := buf ++ (" " ++ Name col ++ " = " ++ param) in
    let setCol := setCol + 1 in
    let addedKey := addedKey + 1 in
    let buf := if addedKey <? primaryCnt then buf ++ " AND" else buf in
    (buf, setCol, addedKey)
  else (buf, setCol, addedKey).

Definition GenerateUpdateSQL (dbTable : DbTableMeta) (namedParams : bool)
  : string * error :=
  let primaryCnt := PrimaryKeyCount dbTable in
  if primaryCnt =? 0 then
    (EmptyString,
     Errorf ("table " ++ TableName dbTable
             ++ " does not have a primary key, cannot generate sql"))
  else
    let buf := "UPDATE " ++ dquote ++ TableName dbTable ++ dquote ++ " SET" in
    let '(buf, setCol) :=
      range (update_set_body namedParams) 0 (Columns dbTable) (buf, 1) in
    let buf := buf ++ " WHERE" in
    let '(buf, _, _) :=
      range (update_where_body namedParams primaryCnt) 0 (Columns dbTable)
            (buf, setCol, 1) in
    (buf, None).

(** *** Insert *)

Definition insert_names_body
           (_ : Z) (col : ColumnMeta) (st : string * bool) : string * bool :=
  let '(buf, pastFirst) := st in
  if negb (IsAutoIncrement col) then
    let buf := if pastFirst then buf ++ ", " else buf in
    let buf := buf ++ (" " ++ Name col) in
    (buf, true)
  else (buf, pastFirst).

Definition insert_values_body (namedParams : bool)
           (i : Z) (col : ColumnMeta) (st : string * bool * Z) : string * bool * Z :=
  let '(buf, pastFirst, pos) := st in
  if negb (IsAutoIncrement col) then
    let buf := if pastFirst then buf ++ ", " else buf in
    let param := "$" ++ fmt_d (i + 1) in
    let param := if namedParams then "@" ++ Name col else param in
    let param := if IsPrimaryKey col then "default" else param in
    let buf := buf ++ param in
    (buf, true, pos + 1)
  else (buf, pastFirst, pos).

Definition GenerateInsertSQL (dbTable : DbTableMeta) (namedParams : bool)
  : string * error :=
  let primaryCnt := PrimaryKeyCount dbTable in
  if primaryCnt =? 0 then
    (EmptyString,
     Errorf ("table " ++ TableName dbTable
             ++ " does not have a primary key, cannot generate sql"))
  else
    let buf := "INSERT INTO " ++ dquote ++ TableName dbTable ++ dquote ++ " (" in
    let '(buf, _) :=
      range insert_names_body 0 (Columns dbTable) (buf, false) in
    let buf := buf ++ ") values ( " in
    let '(buf, _, _) :=
      range (insert_values_body namedParams) 0 (Columns dbTable) (buf, false, 1) in
    let buf := buf ++ " )" in
    (buf, None).

(** *** Select *)

Definition selectOne_body (namedParams : bool)
           (i : Z) (col : ColumnMeta) (st : string * bool * Z) : string * bool * Z :=
  let '(buf, pastFirst, pos) := st in
  if IsPrimaryKey col then
    let buf := if pastFirst then buf ++ " AND " else buf in
    let param :=
      if namedParams then "@where_" ++ Name col ++ "_" ++ fmt_d (i + 1)
      else "$" ++ fmt_d (i + 1) in
    let buf := buf ++ (" " ++ Name col ++ " = " ++ param) in
    (buf, true, pos + 1)
  else (buf, pastFirst, pos).

Definition GenerateSelectOneSQL (dbTable : DbTableMeta) (namedParams : bool)
  : string * error :=
  let primaryCnt := PrimaryKeyCount dbTable in
  if primaryCnt =? 0 then
    (EmptyString,
     Errorf ("table " ++ TableName dbTable
             ++ " does not have a primary key, cannot generate sql"))
  else
    let buf := "SELECT * FROM " ++ dquote ++ TableName dbTable ++ dquote ++ " WHERE" in
    let '(buf, _, _) :=
      range (selectOne_body namedParams) 0 (Columns dbTable) (buf, false, 1) in
    (buf, None).

Definition selectMulti_body (namedParams : bool)
           (i : Z) (col : ColumnMeta) (st : string * bool * Z) : string * bool * Z :=
  let '(buf, pastFirst, pos) := st in
  if IsPrimaryKey col then
    let buf := if pastFirst then buf ++ " AND " else buf in
    let param :=
      if namedParams then "@where_" ++ Name col ++ "_" ++ fmt_d (i + 1)
      else "$" ++ fmt_d (i + 1) in
    let buf :=
      buf ++ (" " ++ Name col ++ " = ANY(" ++ param ++ "::" ++ ColumnType col ++ "[])") in
    (buf, true, pos + 1)
  else (buf, pastFirst, pos).

Definition GenerateSelectMultiSQL (dbTable : DbTableMeta) (namedParams : bool)
  : string * error :=
  let primaryCnt := PrimaryKeyCount dbTable in
  if primaryCnt =? 0 then
    (EmptyString,
     Errorf ("table " ++ TableName dbTable
             ++ " does not have a primary key, cannot generate sql"))
  else
    let buf := "SELECT * FROM " ++ dquote ++ TableName dbTable ++ dquote ++ " WHERE" in
    let '(buf, _, _) :=
      range (selectMulti_body namedParams) 0 (Columns dbTable) (buf, false, 1) in
    (buf, None).

Definition GenerateSelectAllSQL (dbTable : DbTableMeta) : string * error :=
  let primaryCnt := PrimaryKeyCount dbTable in
  if primaryCnt =? 0 then
    (EmptyString,
     Errorf ("table " ++ TableName dbTable
             ++ " does not have a primary key, cannot generate sql"))
  else
    let buf := "SELECT * FROM " ++ dquote ++ TableName dbTable ++ dquote in
    (buf, None).

(** ** Example tables *)

Definition users : DbTableMeta :=
  mkTable "users"
    [ mkColumn "id" "int" true true;
      mkColumn "name" "text" false false;
      mkColumn "deleted_at" "timestamptz" false false ].

Definition t_ab : DbTableMeta :=
  mkTable "t"
    [ mkColumn "a" "int" true false;
      mkColumn "b" "int" true false ].

Definition no_keys : DbTableMeta :=
  mkTable "audit_log"
    [ mkColumn "at" "timestamptz" false false;
      mkColumn "line" "text" false false ].

Definition orders : DbTableMeta :=
  mkTable "orders"
    [ mkColumn "serial" "bigint" false true;
      mkColumn "region" "text" true false;
      mkColumn "number" "int" true false;
      mkColumn "total" "numeric" false false ].

Definition memberships : DbTableMeta :=
  mkTable "memberships"
    [ mkColumn "user_id" "int" true false;
      mkColumn "group_id" "int" true false;
      mkColumn "DeletedAt" "timestamptz" false false ].

Definition events : DbTableMeta :=
  mkTable "events"
    [ mkColumn "id" "int" true true;
      mkColumn "deletedAt" "timestamptz" false false;
      mkColumn "removed_at" "timestamptz" false false ].

Definition no_columns : DbTableMeta := mkTable "empty" [].

Definition ledger : DbTableMeta :=
  mkTable "ledger"
    [ mkColumn "year" "int" true false;
      mkColumn "note" "text" false false;
      mkColumn "book" "int" true false;
      mkColumn "page" "int" true false ].

Definition counters : DbTableMeta :=
  mkTable "counters"
    [ mkColumn "id" "bigint" true true;
      mkColumn "tick" "bigint" false true ].

(** ** Specification vocabulary *)

(** The text [sub] occurs in [s]. *)
Definition Contains (s sub : string) : Prop :=
  exists pre post : string, s = pre ++ sub ++ post.

(** The two failures of the package, by the table name their message carries. *)
Definition NoPrimaryKeyError (table : string) : error :=
  Some ("table " ++ table ++ " does not have a primary key, cannot generate sql").

Definition NoDeletedAtColumnError (table : string) : error :=
  Some ("table " ++ table ++ " does not have a deleted at column, cannot generate sql").

(** Columns paired with their index in the full column list. *)
Fixpoint number_from {A : Type} (i : Z) (l : list A) : list (Z * A) :=
  match l with
  | [] => []
  | x :: r => (i, x) :: number_from (i + 1) r
  end.

(** Plain concatenation, and concatenation with [sep] before every element. *)
Fixpoint glue (l : list string) : string :=
  match l with
  | [] => EmptyString
  | x :: r => x ++ glue r
  end.

Fixpoint prefixed (sep : string) (l : list string) : string :=
  match l with
  | [] => EmptyString
  | x :: r => sep ++ x ++ prefixed sep r
  end.

Definition pkColumns (cols : list ColumnMeta) : list ColumnMeta :=
  filter IsPrimaryKey cols.

Definition nonPkColumns (cols : list ColumnMeta) : list ColumnMeta :=
  filter (fun col => negb (IsPrimaryKey col)) cols.

(** The columns [sel] keeps, each with its index in the column list that
    starts at index [i]. *)
Definition indexed (sel : ColumnMeta -> bool) (i : Z) (cols : list ColumnMeta)
  : list (Z * ColumnMeta) :=
  filter (fun p => sel (snd p)) (number_from i cols).

Definition notAutoIncrement (col : ColumnMeta) : bool := negb (IsAutoIncrement col).

(** Placeholder of select-one and select-multi for the column of index [i]. *)
Definition where_placeholder (namedParams : bool) (p : Z * ColumnMeta) : string :=
  if namedParams then "@where_" ++ Name (snd p) ++ "_" ++ fmt_d (fst p + 1)
  else "$" ++ fmt_d (fst p + 1).

Definition selectOne_term (namedParams : bool) (p : Z * ColumnMeta) : string :=
  " " ++ Name (snd p) ++ " = " ++ where_placeholder namedParams p.

Definition selectMulti_term (namedParams : bool) (p : Z * ColumnMeta) : string :=
  " " ++ Name (snd p) ++ " = ANY(" ++ where_placeholder namedParams p
      ++ "::" ++ ColumnType (snd p) ++ "[])".

(** Entries of the column list and of the VALUES list of an insert. *)
Definition insert_name (p : Z * ColumnMeta) : string := " " ++ Name (snd p).

Definition insert_value (namedParams : bool) (p : Z * ColumnMeta) : string :=
  if IsPrimaryKey (snd p) then "default"
  else if namedParams then "@" ++ Name (snd p)
  else "$" ++ fmt_d (fst p + 1).

(** The test of the soft-delete SET loop: the column is named [deleted_at]
    or [DeletedAt]. *)
Definition is_deleted_at (col : ColumnMeta) : bool :=
  (Name col =? "deleted_at")%string || (Name col =? "DeletedAt")%string.

(** Terms of the soft-delete statement; [fst p] is the value of the shared
    counter [setCol] when the column [snd p] is written. *)
Definition softDelete_set_term (namedParams : bool) (p : Z * ColumnMeta) : string :=
  " " ++ Name (snd p) ++ " = "
      ++ (if namedParams then "@upd_" ++ Name (snd p) ++ "_" ++ fmt_d (fst p)
          else "$" ++ fmt_d (fst p)).

Definition softDelete_where_term (namedParams : bool) (p : Z * ColumnMeta) : string :=
  " " ++ Name (snd p) ++ " = "
      ++ (if namedParams then "@" ++ Name (snd p) else "$" ++ fmt_d (fst p)).

(** Terms of the update statement.  In the SET clause [fst p] is the value
    of [setCol] when the column is written.  In the WHERE clause [fst p] is
    the rank [n] of the key among the primary keys, from 1, and [nonPk] is the
    number of columns of the SET clause: at the [n]-th key [addedKey] is [n]
    and [setCol] is [nonPk + n], and [" AND"] follows the term when the
    incremented [addedKey] is below [primaryCnt]. *)
Definition update_set_term (namedParams : bool) (p : Z * ColumnMeta) : string :=
  " " ++ Name (snd p) ++ " = "
      ++ (if namedParams then "@" ++ Name (snd p) else "$" ++ fmt_d (fst p)).

Definition update_where_term (namedParams : bool) (primaryCnt nonPk : Z)
           (p : Z * ColumnMeta) : string :=
  " " ++ Name (snd p) ++ " = "
      ++ (if namedParams then "@where_" ++ Name (snd p)
          else "$" ++ fmt_d (2 * fst p + nonPk))
      ++ (if fst p + 1 <? primaryCnt then " AND" else EmptyString).

(** The error of a generator that only has the primary-key guard. *)
Definition nil_or_NoPrimaryKeyError (t : DbTableMeta) (r : string * error) : Prop :=
  snd r = None \/ snd r = NoPrimaryKeyError (TableName t).

(** Terms of the hard-delete statement; [fst p] is the rank of the key among
    the primary keys, from 1, which is the value of [addedKey] when the key is
    written. *)
Definition hardDelete_term (namedParams : bool) (primaryCnt : Z)
           (p : Z * ColumnMeta) : string :=
  " " ++ Name (snd p) ++ " = "
      ++ (if namedParams then "@" ++ Name (snd p) ++ "_" ++ fmt_d (fst p)
          else "$" ++ fmt_d (fst p))
      ++ (if fst p + 1 <? primaryCnt then " AND" else EmptyString).

(** Views that differ from [t] in one facet of their columns only: the
    declared types, the auto-increment flags, or the columns outside the
    primary key. *)
Definition with_types (f : ColumnMeta -> string) (t : DbTableMeta) : DbTableMeta :=
  mkTable (TableName t)
          (map (fun col => mkColumn (Name col) (f col) (IsPrimaryKey col)
                                    (IsAutoIncrement col))
               (Columns t)).

Definition with_auto_increment (f : ColumnMeta -> bool) (t : DbTableMeta)
  : DbTableMeta :=
  mkTable (TableName t)
          (map (fun col => mkColumn (Name col) (ColumnType col) (IsPrimaryKey col)
                                    (f col))
               (Columns t)).

Definition only_keys (t : DbTableMeta) : DbTableMeta :=
  mkTable (TableName t) (filter IsPrimaryKey (Columns t)).

(** The two outcomes of a generator: a text that starts with a letter and no
    error, or no text and an error. *)
Definition text_or_error (r : string * error) : Prop :=
  (fst r <> EmptyString /\ snd r = None)
  \/ (fst r = EmptyString /\ snd r <> None).

(** The two preconditions of the generators, on the columns. *)
Definition has_primary_key (t : DbTableMeta) : Prop :=
  exists col, In col (Columns t) /\ IsPrimaryKey col = true.

Definition has_deleted_at_column (t : DbTableMeta) : Prop :=
  exists col, In col (Columns t)
              /\ (Name col = "deleted_at" \/ Name col = "DeletedAt").

(** ** Strings *)

Lemma append_assoc (a b c : string) : (a ++ b) ++ c = a ++ (b ++ c).
Proof. induction a as [|ch a IH]; simpl; [reflexivity | now rewrite IH]. Qed.

Lemma append_nil_r (a : string) : a ++ EmptyString = a.
Proof. induction a as [|ch a IH]; simpl; [reflexivity | now rewrite IH]. Qed.

Lemma concat_cons (sep x : string) (r : list string) :
  String.concat sep (x :: r) = x ++ prefixed sep r.
Proof.
  revert x; induction r as [|y r IH]; intros x.
  - simpl. now rewrite append_nil_r.
  - change (String.concat sep (x :: y :: r)) with (x ++ sep ++ String.concat sep (y :: r)).
    now rewrite IH.
Qed.

Lemma Contains_intro (pre sub post : string) : Contains (pre ++ sub ++ post) sub.
Proof. now exists pre, post. Qed.

(** ** Counting primary keys *)

Lemma range_count (i : Z) (cols : list ColumnMeta) (k : Z) :
  range (fun _ col primaryKeys =>
           if IsPrimaryKey col then primaryKeys + 1 else primaryKeys) i cols k
  = k + Z.of_nat (List.length (pkColumns cols)).
Proof.
  revert i k; induction cols as [|col cols IH]; intros i k; simpl.
  - lia.
  - rewrite IH. destruct (IsPrimaryKey col); simpl List.length; lia.
Qed.

Lemma PrimaryKeyCount_length (t : DbTableMeta) :
  PrimaryKeyCount t = Z.of_nat (List.length (pkColumns (Columns t))).
Proof. unfold PrimaryKeyCount. now rewrite range_count. Qed.

Lemma at_least_one_key (t : DbTableMeta) :
  1 <= PrimaryKeyCount t -> (PrimaryKeyCount t =? 0) = false.
Proof. intros H. apply Z.eqb_neq. lia. Qed.

Lemma range_names (sel : ColumnMeta -> bool) (i : Z) (cols : list ColumnMeta)
      (acc : list string) :
  range (fun _ col names => if sel col then names ++ [Name col] else names)%list
        i cols acc
  = (acc ++ map Name (filter sel cols))%list.
Proof.
  revert i acc; induction cols as [|col cols IH]; intros i acc; simpl.
  - now rewrite app_nil_r.
  - rewrite IH. destruct (sel col); [|reflexivity].
    simpl. now rewrite <- app_assoc.
Qed.

Lemma PrimaryKeyNames_map (t : DbTableMeta) :
  PrimaryKeyNames t = map Name (pkColumns (Columns t)).
Proof. unfold PrimaryKeyNames. now rewrite range_names. Qed.

Lemma NonPrimaryKeyNames_map (t : DbTableMeta) :
  NonPrimaryKeyNames t = map Name (nonPkColumns (Columns t)).
Proof.
  unfold NonPrimaryKeyNames.
  now rewrite (range_names (fun col => negb (IsPrimaryKey col))).
Qed.

(** ** Indexed selections *)

Lemma indexed_columns (sel : ColumnMeta -> bool) (i : Z) (cols : list ColumnMeta) :
  map snd (indexed sel i cols) = filter sel cols.
Proof.
  unfold indexed. revert i; induction cols as [|col cols IH]; intros i; simpl.
  - reflexivity.
  - destruct (sel col); simpl; now rewrite IH.
Qed.

Lemma indexed_length (sel : ColumnMeta -> bool) (i : Z) (cols : list ColumnMeta) :
  List.length (indexed sel i cols) = List.length (filter sel cols).
Proof. now rewrite <- (indexed_columns sel i cols), length_map. Qed.

Lemma indexed_cons (sel : ColumnMeta -> bool) (i : Z) (col : ColumnMeta)
      (cols : list ColumnMeta) :
  indexed sel i (col :: cols)
  = if sel col then (i, col) :: indexed sel (i + 1) cols
    else indexed sel (i + 1) cols.
Proof. reflexivity. Qed.

Lemma In_number_from {A : Type} (k : Z) (l : list A) (p : Z * A) :
  In p (number_from k l) ->
  k <= fst p /\ nth_error l (Z.to_nat (fst p - k)) = Some (snd p).
Proof.
  revert k; induction l as [|x r IH]; intros k; simpl.
  - intros [].
  - intros [<- | Hin]; simpl.
    + rewrite Z.sub_diag. split; [lia | reflexivity].
    + destruct (IH _ Hin) as [Hle Hnth]. split; [lia|].
      replace (fst p - k) with (Z.succ (fst p - (k + 1))) by lia.
      rewrite Z2Nat.inj_succ by lia. exact Hnth.
Qed.

(** An entry of [indexed sel 0 cols] is a column [sel] keeps, at its own
    position in [cols]. *)
Lemma In_indexed (sel : ColumnMeta -> bool) (cols : list ColumnMeta)
      (p : Z * ColumnMeta) :
  In p (indexed sel 0 cols) ->
  sel (snd p) = true
  /\ 0 <= fst p
  /\ nth_error cols (Z.to_nat (fst p)) = Some (snd p).
Proof.
  unfold indexed. rewrite filter_In. intros [Hin Hsel].
  apply In_number_from in Hin. rewrite Z.sub_0_r in Hin.
  destruct Hin as [Hle Hnth]. auto.
Qed.

(** ** Loops that separate their entries with a [pastFirst] flag *)

Section JoinLoop.

Variable sel : ColumnMeta -> bool.
Variable sep : string.
Variable entry : Z * ColumnMeta -> string.
Variable body : Z -> ColumnMeta -> string * bool * Z -> string * bool * Z.

Hypothesis body_sel : forall i col buf pastFirst pos,
    sel col = true ->
    body i col (buf, pastFirst, pos)
    = ((if pastFirst then buf ++ sep else buf) ++ entry (i, col), true, pos + 1).

Hypothesis body_skip : forall i col st, sel col = false -> body i col st = st.

Lemma range_join (i : Z) (cols : list ColumnMeta) (buf : string)
      (pastFirst : bool) (pos : Z) :
  range body i cols (buf, pastFirst, pos)
  = (buf ++ (if pastFirst
             then prefixed sep (map entry (indexed sel i cols))
             else String.concat sep (map entry (indexed sel i cols))),
     pastFirst || existsb sel cols,
     pos + Z.of_nat (List.length (indexed sel i cols))).
Proof.
  revert i buf pastFirst pos.
  induction cols as [|col cols IH]; intros i buf pastFirst pos.
  - simpl. destruct pastFirst; rewrite append_nil_r, Z.add_0_r; reflexivity.
  - cbn [range existsb]. rewrite indexed_cons.
    destruct (sel col) eqn:Hsel.
    + rewrite body_sel by assumption. rewrite IH.
      cbn [map List.length orb]. rewrite concat_cons.
      rewrite orb_true_r, Nat2Z.inj_succ.
      replace (pos + 1 + Z.of_nat (List.length (indexed sel (i + 1) cols)))
        with (pos + Z.succ (Z.of_nat (List.length (indexed sel (i + 1) cols))))
        by lia.
      destruct pastFirst; cbn [prefixed]; now rewrite !append_assoc.
    + rewrite body_skip by assumption. rewrite IH. reflexivity.
Qed.

End JoinLoop.

Lemma selectOne_loop (namedParams : bool) (cols : list ColumnMeta) (buf : string) :
  range (selectOne_body namedParams) 0 cols (buf, false, 1)
  = (buf ++ String.concat " AND "
                (map (selectOne_term namedParams) (indexed IsPrimaryKey 0 cols)),
     existsb IsPrimaryKey cols,
     1 + Z.of_nat (List.length (indexed IsPrimaryKey 0 cols))).
Proof.
  apply (range_join IsPrimaryKey " AND " (selectOne_term namedParams)).
  - intros i col b pf pos Hsel. unfold selectOne_body. rewrite Hsel.
    reflexivity.
  - intros i col [[b pf] pos] Hsel. unfold selectOne_body. now rewrite Hsel.
Qed.

Lemma selectMulti_loop (namedParams : bool) (cols : list ColumnMeta) (buf : string) :
  range (selectMulti_body namedParams) 0 cols (buf, false, 1)
  = (buf ++ String.concat " AND "
                (map (selectMulti_term namedParams) (indexed IsPrimaryKey 0 cols)),
     existsb IsPrimaryKey cols,
     1 + Z.of_nat (List.length (indexed IsPrimaryKey 0 cols))).
Proof.
  apply (range_join IsPrimaryKey " AND " (selectMulti_term namedParams)).
  - intros i col b pf pos Hsel. unfold selectMulti_body. rewrite Hsel.
    reflexivity.
  - intros i col [[b pf] pos] Hsel. unfold selectMulti_body. now rewrite Hsel.
Qed.

Lemma insert_values_loop (namedParams : bool) (cols : list ColumnMeta) (buf : string) :
  range (insert_values_body namedParams) 0 cols (buf, false, 1)
  = (buf ++ String.concat ", "
                (map (insert_value namedParams) (indexed notAutoIncrement 0 cols)),
     existsb notAutoIncrement cols,
     1 + Z.of_nat (List.length (indexed notAutoIncrement 0 cols))).
Proof.
  apply (range_join notAutoIncrement ", " (insert_value namedParams)).
  - intros i col b pf pos Hsel. unfold insert_values_body.
    unfold notAutoIncrement in Hsel. rewrite Hsel.
    unfold insert_value. cbn [fst snd].
    destruct (IsPrimaryKey col), namedParams; reflexivity.
  - intros i col [[b pf] pos] Hsel. unfold insert_values_body.
    unfold notAutoIncrement in Hsel. now rewrite Hsel.
Qed.

Lemma insert_names_loop (i : Z) (cols : list ColumnMeta) (buf : string)
      (pastFirst : bool) :
  range insert_names_body i cols (buf, pastFirst)
  = (buf ++ (if pastFirst
             then prefixed ", " (map insert_name (indexed notAutoIncrement i cols))
             else String.concat ", " (map insert_name (indexed notAutoIncrement i cols))),
     pastFirst || existsb notAutoIncrement cols).
Proof.
  revert i buf pastFirst.
  induction cols as [|col cols IH]; intros i buf pastFirst.
  - simpl. destruct pastFirst; now rewrite append_nil_r.
  - cbn [range existsb]. rewrite indexed_cons.
    change (insert_names_body i col (buf, pastFirst))
      with (if notAutoIncrement col
            then ((if pastFirst then buf ++ ", " else buf) ++ insert_name (i, col), true)
            else (buf, pastFirst)).
    destruct (notAutoIncrement col).
    + rewrite IH. cbn [map orb]. rewrite concat_cons, orb_true_r.
      destruct pastFirst; cbn [prefixed]; now rewrite !append_assoc.
    + rewrite IH. reflexivity.
Qed.

(** ** Loops that separate their entries by testing a counter *)

Lemma number_from_length {A : Type} (k : Z) (l : list A) :
  List.length (number_from k l) = List.length l.
Proof. revert k; induction l as [|x r IH]; intros k; simpl; [|rewrite IH]; reflexivity. Qed.

Section CounterLoop.

Variable sel : ColumnMeta -> bool.
Variable sep : string.
Variable entry : Z * ColumnMeta -> string.
Variable body : Z -> ColumnMeta -> string * Z -> string * Z.

Hypothesis body_sel : forall i col buf setCol,
    sel col = true ->
    body i col (buf, setCol)
    = ((if negb (setCol =? 1) then buf ++ sep else buf) ++ entry (setCol, col),
       setCol + 1).

Hypothesis body_skip : forall i col st, sel col = false -> body i col st = st.

Lemma range_counted (i : Z) (cols : list ColumnMeta) (buf : string) (setCol : Z) :
  1 <= setCol ->
  range body i cols (buf, setCol)
  = (buf ++ (if setCol =? 1
             then String.concat sep (map entry (number_from setCol (filter sel cols)))
             else prefixed sep (map entry (number_from setCol (filter sel cols)))),
     setCol + Z.of_nat (List.length (filter sel cols))).
Proof.
  revert i buf setCol.
  induction cols as [|col cols IH]; intros i buf setCol Hle.
  - simpl. destruct (setCol =? 1); rewrite append_nil_r, Z.add_0_r; reflexivity.
  - cbn [range filter].
    destruct (sel col) eqn:Hsel.
    + rewrite body_sel by assumption. rewrite IH by lia.
      replace (setCol + 1 =? 1) with false by (symmetry; apply Z.eqb_neq; lia).
      cbn [number_from map List.length]. rewrite concat_cons, Nat2Z.inj_succ.
      replace (setCol + 1 + Z.of_nat (List.length (filter sel cols)))
        with (setCol + Z.succ (Z.of_nat (List.length (filter sel cols)))) by lia.
      destruct (setCol =? 1); cbn [negb prefixed]; now rewrite !append_assoc.
    + rewrite body_skip by assumption. now rewrite IH.
Qed.

End CounterLoop.

Lemma is_deleted_at_test (col : ColumnMeta) :
  negb (Name col =? "deleted_at")%string && negb (Name col =? "DeletedAt")%string
  = negb (is_deleted_at col).
Proof. unfold is_deleted_at. now rewrite negb_orb. Qed.

Lemma is_deleted_at_name (col : ColumnMeta) :
  is_deleted_at col = true <-> Name col = "deleted_at" \/ Name col = "DeletedAt".
Proof.
  unfold is_deleted_at. rewrite orb_true_iff, !String.eqb_eq. reflexivity.
Qed.

Lemma softDelete_set_loop (namedParams : bool) (cols : list ColumnMeta) (buf : string) :
  range (softDelete_set_body namedParams) 0 cols (buf, 1)
  = (buf ++ String.concat ","
                (map (softDelete_set_term namedParams)
                     (number_from 1 (filter is_deleted_at cols))),
     1 + Z.of_nat (List.length (filter is_deleted_at cols))).
Proof.
  apply (range_counted is_deleted_at "," (softDelete_set_term namedParams)); [| |lia].
  - intros i col b k Hsel. unfold softDelete_set_body.
    rewrite is_deleted_at_test, Hsel. reflexivity.
  - intros i col [b k] Hsel. unfold softDelete_set_body.
    rewrite is_deleted_at_test, Hsel. reflexivity.
Qed.

Lemma softDelete_where_loop (namedParams : bool) (i : Z) (cols : list ColumnMeta)
      (buf : string) (setCol : Z) :
  range (softDelete_where_body namedParams) i cols (buf, setCol)
  = (buf ++ glue (map (softDelete_where_term namedParams)
                      (number_from setCol (filter IsPrimaryKey cols))),
     setCol + Z.of_nat (List.length (filter IsPrimaryKey cols))).
Proof.
  revert i buf setCol.
  induction cols as [|col cols IH]; intros i buf setCol.
  - simpl. now rewrite append_nil_r, Z.add_0_r.
  - cbn [range filter].
    change (softDelete_where_body namedParams i col (buf, setCol))
      with (if IsPrimaryKey col
            then (buf ++ softDelete_where_term namedParams (setCol, col), setCol + 1)
            else (buf, setCol)).
    destruct (IsPrimaryKey col).
    + rewrite IH. cbn [number_from map glue List.length].
      rewrite Nat2Z.inj_succ, append_assoc. f_equal. lia.
    + now rewrite IH.
Qed.

(** The text of a successful soft delete, and the test that decides between
    it and the failure. *)
Lemma GenerateSoftDeleteSQL_unfold (t : DbTableMeta) (namedParams : bool) :
  1 <= PrimaryKeyCount t ->
  GenerateSoftDeleteSQL t namedParams
  = if 1 + Z.of_nat (List.length (filter is_deleted_at (Columns t))) =? 1
    then (EmptyString, NoDeletedAtColumnError (TableName t))
    else ("UPDATE " ++ dquote ++ TableName t ++ dquote ++ " set"
            ++ String.concat ","
                 (map (softDelete_set_term namedParams)
                      (number_from 1 (filter is_deleted_at (Columns t))))
            ++ " WHERE"
            ++ glue (map (softDelete_where_term namedParams)
                         (number_from
                            (1 + Z.of_nat (List.length (filter is_deleted_at (Columns t))))
                            (filter IsPrimaryKey (Columns t)))),
          None).
Proof.
  intros H. unfold GenerateSoftDeleteSQL.
  rewrite (at_least_one_key t H), softDelete_set_loop.
  cbv beta iota zeta.
  destruct (1 + Z.of_nat (List.length (filter is_deleted_at (Columns t))) =? 1).
  - reflexivity.
  - rewrite softDelete_where_loop. cbv beta iota zeta. now rewrite !append_assoc.
Qed.

Lemma no_deleted_at_column (cols : list ColumnMeta) :
  filter is_deleted_at cols = []
  <-> (forall col, In col cols -> Name col <> "deleted_at" /\ Name col <> "DeletedAt").
Proof.
  split.
  - intros Hnil col Hin.
    assert (Hf : is_deleted_at col = false).
    { destruct (is_deleted_at col) eqn:E; [|reflexivity].
      assert (Hc : In col (filter is_deleted_at cols)) by (apply filter_In; auto).
      rewrite Hnil in Hc. destruct Hc. }
    split; intros Hn;
      (assert (Ht : is_deleted_at col = true) by (apply is_deleted_at_name; auto));
      congruence.
  - intros Hall. induction cols as [|col cols IH]; [reflexivity|].
    simpl. destruct (is_deleted_at col) eqn:E.
    + apply is_deleted_at_name in E.
      destruct (Hall col (or_introl eq_refl)) as [H1 H2].
      destruct E; contradiction.
    + apply IH. intros c Hc. apply Hall. now right.
Qed.

(** ** The loop of hard delete *)

Lemma hardDelete_step (namedParams : bool) (primaryCnt i : Z) (col : ColumnMeta)
      (buf : string) (addedKey : Z) :
  hardDelete_body namedParams primaryCnt i col (buf, addedKey)
  = if IsPrimaryKey col
    then (buf ++ hardDelete_term namedParams primaryCnt (addedKey, col),
          addedKey + 1)
    else (buf, addedKey).
Proof.
  unfold hardDelete_body, hardDelete_term. cbn [fst snd].
  destruct (IsPrimaryKey col); [|reflexivity].
  destruct (addedKey + 1 <? primaryCnt).
  - now rewrite !append_assoc.
  - now rewrite append_nil_r.
Qed.

Lemma hardDelete_loop (namedParams : bool) (primaryCnt i : Z)
      (cols : list ColumnMeta) (buf : string) (addedKey : Z) :
  range (hardDelete_body namedParams primaryCnt) i cols (buf, addedKey)
  = (buf ++ glue (map (hardDelete_term namedParams primaryCnt)
                      (number_from addedKey (pkColumns cols))),
     addedKey + Z.of_nat (List.length (pkColumns cols))).
Proof.
  revert i buf addedKey.
  induction cols as [|col cols IH]; intros i buf addedKey.
  - simpl. now rewrite append_nil_r, Z.add_0_r.
  - cbn [range]. rewrite hardDelete_step. unfold pkColumns. cbn [filter].
    fold (pkColumns cols).
    destruct (IsPrimaryKey col).
    + rewrite IH. cbn [number_from map glue List.length].
      rewrite Nat2Z.inj_succ, append_assoc. f_equal. lia.
    + now rewrite IH.
Qed.

(** The text of a hard delete, on any table with a primary key: [" AND"]
    follows the [n]-th comparison only when [n + 1 < primaryCnt]. *)
Lemma GenerateHardDeleteSQL_text (t : DbTableMeta) (namedParams : bool) :
  1 <= PrimaryKeyCount t ->
  GenerateHardDeleteSQL t namedParams
  = ("DELETE FROM " ++ dquote ++ TableName t ++ dquote ++ " where"
       ++ glue (map (hardDelete_term namedParams (PrimaryKeyCount t))
                    (number_from 1 (pkColumns (Columns t)))),
     None).
Proof.
  intros H. unfold GenerateHardDeleteSQL.
  rewrite (at_least_one_key t H), hardDelete_loop.
  cbv beta iota zeta. now rewrite !append_assoc.
Qed.

(** ** The loops of update *)

Lemma update_set_loop (namedParams : bool) (cols : list ColumnMeta) (buf : string) :
  range (update_set_body namedParams) 0 cols (buf, 1)
  = (buf ++ String.concat ","
                (map (update_set_term namedParams)
                     (number_from 1 (nonPkColumns cols))),
     1 + Z.of_nat (List.length (nonPkColumns cols))).
Proof.
  apply (range_counted (fun col => negb (IsPrimaryKey col)) ","
                       (update_set_term namedParams)); [| |lia].
  - intros i col b k Hsel. unfold update_set_body. rewrite Hsel. reflexivity.
  - intros i col [b k] Hsel. unfold update_set_body. now rewrite Hsel.
Qed.

Lemma update_where_step (namedParams : bool) (primaryCnt i : Z) (col : ColumnMeta)
      (buf : string) (setCol addedKey : Z) :
  update_where_body namedParams primaryCnt i col (buf, setCol, addedKey)
  = if IsPrimaryKey col
    then (buf ++ update_where_term namedParams primaryCnt (setCol - addedKey)
                                   (addedKey, col),
          setCol + 1, addedKey + 1)
    else (buf, setCol, addedKey).
Proof.
  unfold update_where_body, update_where_term. cbn [fst snd].
  replace (2 * addedKey + (setCol - addedKey)) with (addedKey + setCol) by lia.
  destruct (IsPrimaryKey col); [|reflexivity].
  destruct (addedKey + 1 <? primaryCnt).
  - now rewrite !append_assoc.
  - now rewrite append_nil_r.
Qed.

Lemma update_where_loop (namedParams : bool) (primaryCnt i : Z)
      (cols : list ColumnMeta) (buf : string) (setCol addedKey : Z) :
  range (update_where_body namedParams primaryCnt) i cols (buf, setCol, addedKey)
  = (buf ++ glue (map (update_where_term namedParams primaryCnt (setCol - addedKey))
                      (number_from addedKey (pkColumns cols))),
     setCol + Z.of_nat (List.length (pkColumns cols)),
     addedKey + Z.of_nat (List.length (pkColumns cols))).
Proof.
  revert i buf setCol addedKey.
  induction cols as [|col cols IH]; intros i buf setCol addedKey.
  - simpl. now rewrite append_nil_r, !Z.add_0_r.
  - cbn [range]. rewrite update_where_step. unfold pkColumns. cbn [filter].
    fold (pkColumns cols).
    destruct (IsPrimaryKey col).
    + rewrite IH. cbn [number_from map glue List.length].
      replace (setCol + 1 - (addedKey + 1)) with (setCol - addedKey) by lia.
      rewrite Nat2Z.inj_succ, append_assoc. f_equal; [f_equal|]; lia.
    + now rewrite IH.
Qed.

(** The text of an update, on any table with a primary key. *)
Lemma GenerateUpdateSQL_text (t : DbTableMeta) (namedParams : bool) :
  1 <= PrimaryKeyCount t ->
  GenerateUpdateSQL t namedParams
  = ("UPDATE " ++ dquote ++ TableName t ++ dquote ++ " SET"
       ++ String.concat ","
            (map (update_set_term namedParams)
                 (number_from 1 (nonPkColumns (Columns t))))
       ++ " WHERE"
       ++ glue (map (update_where_term namedParams (PrimaryKeyCount t)
                       (Z.of_nat (List.length (nonPkColumns (Columns t)))))
                    (number_from 1 (pkColumns (Columns t)))),
     None).
Proof.
  intros H. unfold GenerateUpdateSQL.
  rewrite (at_least_one_key t H), update_set_loop.
  cbv beta iota zeta. rewrite update_where_loop. cbv beta iota zeta.
  replace (1 + Z.of_nat (List.length (nonPkColumns (Columns t))) - 1)
    with (Z.of_nat (List.length (nonPkColumns (Columns t)))) by lia.
  now rewrite !append_assoc.
Qed.

Lemma filter_all {A : Type} (f : A -> bool) (l : list A) :
  (forall x, In x l -> f x = true) -> filter f l = l.
Proof.
  induction l as [|x r IH]; intros Hall; simpl; [reflexivity|].
  rewrite (Hall x (or_introl eq_refl)), IH; [reflexivity|].
  intros y Hy. apply Hall. now right.
Qed.

Lemma filter_none {A : Type} (f : A -> bool) (l : list A) :
  (forall x, In x l -> f x = true) -> filter (fun x => negb (f x)) l = [].
Proof.
  induction l as [|x r IH]; intros Hall; simpl; [reflexivity|].
  rewrite (Hall x (or_introl eq_refl)). simpl. apply IH.
  intros y Hy. apply Hall. now right.
Qed.

(** ** The two errors *)

Lemma list_ascii_of_string_app (a b : string) :
  list_ascii_of_string (a ++ b)
  = (list_ascii_of_string a ++ list_ascii_of_string b)%list.
Proof. induction a as [|ch a IH]; simpl; [reflexivity | now rewrite IH]. Qed.

(** The two messages end differently, whatever table names they carry. *)
Lemma NoPrimaryKeyError_not_NoDeletedAtColumnError (a b : string) :
  NoPrimaryKeyError a <> NoDeletedAtColumnError b.
Proof.
  unfold NoPrimaryKeyError, NoDeletedAtColumnError. intros E.
  simpl in E. injection E as E.
  apply (f_equal list_ascii_of_string) in E.
  apply (f_equal (@rev ascii)) in E.
  rewrite !list_ascii_of_string_app, !rev_app_distr in E.
  simpl in E. discriminate E.
Qed.

Lemma nil_or_NoPrimaryKeyError_not_NoDeletedAt
      (t : DbTableMeta) (r : string * error) (name : string) :
  nil_or_NoPrimaryKeyError t r -> snd r <> NoDeletedAtColumnError name.
Proof.
  intros [E | E]; rewrite E.
  - discriminate.
  - apply NoPrimaryKeyError_not_NoDeletedAtColumnError.
Qed.

Ltac guard_only :=
  unfold nil_or_NoPrimaryKeyError;
  match goal with
  | |- context [PrimaryKeyCount ?t =? 0] => destruct (PrimaryKeyCount t =? 0)
  end;
  [ right; reflexivity
  | left;
    repeat match goal with
           | |- context [match ?x with pair _ _ => _ end] => destruct x
           end;
    reflexivity ].

Lemma GenerateHardDeleteSQL_error (t : DbTableMeta) (namedParams : bool) :
  nil_or_NoPrimaryKeyError t (GenerateHardDeleteSQL t namedParams).
Proof. unfold GenerateHardDeleteSQL. guard_only. Qed.

Lemma GenerateUpdateSQL_error (t : DbTableMeta) (namedParams : bool) :
  nil_or_NoPrimaryKeyError t (GenerateUpdateSQL t namedParams).
Proof. unfold GenerateUpdateSQL. guard_only. Qed.

Lemma GenerateInsertSQL_error (t : DbTableMeta) (namedParams : bool) :
  nil_or_NoPrimaryKeyError t (GenerateInsertSQL t namedParams).
Proof. unfold GenerateInsertSQL. guard_only. Qed.

Lemma GenerateSelectOneSQL_error (t : DbTableMeta) (namedParams : bool) :
  nil_or_NoPrimaryKeyError t (GenerateSelectOneSQL t namedParams).
Proof. unfold GenerateSelectOneSQL. guard_only. Qed.

Lemma GenerateSelectMultiSQL_error (t : DbTableMeta) (namedParams : bool) :
  nil_or_NoPrimaryKeyError t (GenerateSelectMultiSQL t namedParams).
Proof. unfold GenerateSelectMultiSQL. guard_only. Qed.

Lemma GenerateSelectAllSQL_error (t : DbTableMeta) :
  nil_or_NoPrimaryKeyError t (GenerateSelectAllSQL t).
Proof. unfold GenerateSelectAllSQL. guard_only. Qed.

(** ** Tables without a primary key *)

(** C1: on a table with no primary-key column, each of the seven generators
    returns the empty string and the no-primary-key error, in both parameter
    modes, and the text of that error contains the table name. *)
Theorem no_primary_key_every_generator_fails
        (t : DbTableMeta) (namedParams : bool)
        (H : PrimaryKeyCount t = 0) :
  GenerateHardDeleteSQL t namedParams = (EmptyString, NoPrimaryKeyError (TableName t))
  /\ GenerateSoftDeleteSQL t namedParams = (EmptyString, NoPrimaryKeyError (TableName t))
  /\ GenerateUpdateSQL t namedParams = (EmptyString, NoPrimaryKeyError (TableName t))
  /\ GenerateInsertSQL t namedParams = (EmptyString, NoPrimaryKeyError (TableName t))
  /\ GenerateSelectOneSQL t namedParams = (EmptyString, NoPrimaryKeyError (TableName t))
  /\ GenerateSelectMultiSQL t namedParams = (EmptyString, NoPrimaryKeyError (TableName t))
  /\ GenerateSelectAllSQL t = (EmptyString, NoPrimaryKeyError (TableName t))
  /\ (forall msg, NoPrimaryKeyError (TableName t) = Some msg ->
                  Contains msg (TableName t)).
Proof.
  unfold GenerateHardDeleteSQL, GenerateSoftDeleteSQL, GenerateUpdateSQL,
    GenerateInsertSQL, GenerateSelectOneSQL, GenerateSelectMultiSQL,
    GenerateSelectAllSQL.
  rewrite H. cbn [Z.eqb]. unfold Errorf, NoPrimaryKeyError.
  repeat split.
  intros msg E. injection E as <-.
  exact (Contains_intro "table " (TableName t)
           " does not have a primary key, cannot generate sql").
Qed.

Lemma no_primary_key_every_generator_fails_witness :
  GenerateHardDeleteSQL no_keys true = (EmptyString, NoPrimaryKeyError "audit_log")
  /\ GenerateSelectAllSQL no_keys = (EmptyString, NoPrimaryKeyError "audit_log").
Proof.
  destruct (no_primary_key_every_generator_fails no_keys true eq_refl)
    as (Hd & _ & _ & _ & _ & _ & Ha & _).
  split; [exact Hd | exact Ha].
Defined.

(** ** Select-one and select-multi *)

(** C9: on a table with a primary key, select-multi writes, after the
    [WHERE] keyword, one comparison [<pk> = ANY(<placeholder>::<type>[])] per
    primary-key column, in table order and joined by [" AND "]; the declared
    type is copied as it is, and the placeholder is the one select-one writes
    for the same column: [$<i+1>] or [@where_<colname>_<i+1>], where [i] is the
    index of the column in the full column list. *)
Theorem select_multi_one_ANY_comparison_per_key
        (t : DbTableMeta) (namedParams : bool)
        (H : 1 <= PrimaryKeyCount t) :
  GenerateSelectMultiSQL t namedParams
  = ("SELECT * FROM " ++ dquote ++ TableName t ++ dquote ++ " WHERE"
       ++ String.concat " AND "
            (map (selectMulti_term namedParams)
                 (indexed IsPrimaryKey 0 (Columns t))),
     None)
  /\ GenerateSelectOneSQL t namedParams
     = ("SELECT * FROM " ++ dquote ++ TableName t ++ dquote ++ " WHERE"
          ++ String.concat " AND "
               (map (selectOne_term namedParams)
                    (indexed IsPrimaryKey 0 (Columns t))),
        None)
  /\ map snd (indexed IsPrimaryKey 0 (Columns t)) = filter IsPrimaryKey (Columns t)
  /\ Z.of_nat (List.length (indexed IsPrimaryKey 0 (Columns t))) = PrimaryKeyCount t
  /\ (forall p, In p (indexed IsPrimaryKey 0 (Columns t)) ->
        0 <= fst p
        /\ nth_error (Columns t) (Z.to_nat (fst p)) = Some (snd p)
        /\ selectMulti_term namedParams p
           = " " ++ Name (snd p) ++ " = ANY("
               ++ (if namedParams
                   then "@where_" ++ Name (snd p) ++ "_" ++ fmt_d (fst p + 1)
                   else "$" ++ fmt_d (fst p + 1))
               ++ "::" ++ ColumnType (snd p) ++ "[])"
        /\ selectOne_term namedParams p
           = " " ++ Name (snd p) ++ " = "
               ++ (if namedParams
                   then "@where_" ++ Name (snd p) ++ "_" ++ fmt_d (fst p + 1)
                   else "$" ++ fmt_d (fst p + 1))).
Proof.
  pose proof (at_least_one_key t H) as Hguard.
  split; [|split; [|split; [|split]]].
  - unfold GenerateSelectMultiSQL. rewrite Hguard, selectMulti_loop.
    cbv beta iota zeta. now rewrite !append_assoc.
  - unfold GenerateSelectOneSQL. rewrite Hguard, selectOne_loop.
    cbv beta iota zeta. now rewrite !append_assoc.
  - apply indexed_columns.
  - rewrite indexed_length. symmetry. apply PrimaryKeyCount_length.
  - intros p Hin. destruct (In_indexed _ _ _ Hin) as (_ & Hle & Hnth).
    repeat split; assumption.
Qed.

Lemma select_multi_one_ANY_comparison_per_key_witness :
  GenerateSelectMultiSQL t_ab true
  = ("SELECT * FROM " ++ dquote ++ "t" ++ dquote
       ++ " WHERE a = ANY(@where_a_1::int[]) AND  b = ANY(@where_b_2::int[])",
     None).
Proof.
  assert (Hk : 1 <= PrimaryKeyCount t_ab) by (vm_compute; discriminate).
  exact (proj1 (select_multi_one_ANY_comparison_per_key t_ab true Hk)).
Defined.

(** ** Insert *)

(** C3, as the code has it: on the table [users] in positional mode the
    insert statement separates the two kept columns by a comma and two
    spaces, and the select-one statement has one space after [WHERE]. *)
Theorem users_insert_and_select_one_text :
  GenerateInsertSQL users false
  = ("INSERT INTO " ++ dquote ++ "users" ++ dquote
       ++ " ( name,  deleted_at) values ( $2, $3 )", None)
  /\ GenerateSelectOneSQL users false
     = ("SELECT * FROM " ++ dquote ++ "users" ++ dquote ++ " WHERE id = $1", None).
Proof. split; reflexivity. Qed.

(** C3, as the specification words it, does not hold: neither text it gives
    is the one returned. *)
Lemma users_insert_and_select_one_spec_text_differs :
  GenerateInsertSQL users false
  <> ("INSERT INTO " ++ dquote ++ "users" ++ dquote
        ++ " ( name, deleted_at) values ( $2, $3 )", None)
  /\ GenerateSelectOneSQL users false
     <> ("SELECT * FROM " ++ dquote ++ "users" ++ dquote ++ " WHERE  id = $1", None).
Proof. split; vm_compute; discriminate. Qed.

(** C8: on a table with a primary key, the column list and the VALUES list
    of an insert have one entry per column that is not auto-increment, in
    table order; such a column yields [default] when it is a primary key, in
    both modes, and otherwise [$<i+1>], with [i] its index in the full column
    list, or [@<colname>]. *)
Theorem insert_lists_the_non_auto_increment_columns
        (t : DbTableMeta) (namedParams : bool)
        (H : 1 <= PrimaryKeyCount t) :
  GenerateInsertSQL t namedParams
  = ("INSERT INTO " ++ dquote ++ TableName t ++ dquote ++ " ("
       ++ String.concat ", "
            (map insert_name (indexed notAutoIncrement 0 (Columns t)))
       ++ ") values ( "
       ++ String.concat ", "
            (map (insert_value namedParams) (indexed notAutoIncrement 0 (Columns t)))
       ++ " )",
     None)
  /\ map snd (indexed notAutoIncrement 0 (Columns t))
     = filter (fun col => negb (IsAutoIncrement col)) (Columns t)
  /\ List.length (map insert_name (indexed notAutoIncrement 0 (Columns t)))
     = List.length (filter (fun col => negb (IsAutoIncrement col)) (Columns t))
  /\ List.length (map (insert_value namedParams) (indexed notAutoIncrement 0 (Columns t)))
     = List.length (filter (fun col => negb (IsAutoIncrement col)) (Columns t))
  /\ (forall p, In p (indexed notAutoIncrement 0 (Columns t)) ->
        0 <= fst p
        /\ nth_error (Columns t) (Z.to_nat (fst p)) = Some (snd p)
        /\ insert_name p = " " ++ Name (snd p)
        /\ (IsPrimaryKey (snd p) = true -> insert_value namedParams p = "default")
        /\ (IsPrimaryKey (snd p) = false ->
            insert_value namedParams p
            = if namedParams then "@" ++ Name (snd p)
              else "$" ++ fmt_d (fst p + 1))).
Proof.
  pose proof (at_least_one_key t H) as Hguard.
  split; [|split; [|split; [|split]]].
  - unfold GenerateInsertSQL. rewrite Hguard, insert_names_loop.
    cbv beta iota zeta. rewrite insert_values_loop.
    cbv beta iota zeta. now rewrite !append_assoc.
  - apply indexed_columns.
  - rewrite length_map. apply indexed_length.
  - rewrite length_map. apply indexed_length.
  - intros p Hin. destruct (In_indexed _ _ _ Hin) as (_ & Hle & Hnth).
    unfold insert_value.
    repeat split; try assumption; intros ->; reflexivity.
Qed.

Lemma insert_lists_the_non_auto_increment_columns_witness :
  GenerateInsertSQL orders false
  = ("INSERT INTO " ++ dquote ++ "orders" ++ dquote
       ++ " ( region,  number,  total) values ( default, default, $4 )", None).
Proof.
  assert (Hk : 1 <= PrimaryKeyCount orders) by (vm_compute; discriminate).
  exact (proj1 (insert_lists_the_non_auto_increment_columns orders false Hk)).
Defined.

(** ** Soft delete *)

(** C4: on a table with a primary key and a column named [deleted_at] or
    [DeletedAt], soft delete succeeds.  Its SET clause has the columns of
    those two names and no other, with placeholder [$<n>] or
    [@upd_<colname>_<n>]; its WHERE clause has the primary keys, with
    placeholder [@<colname>] in named mode and, in positional mode, numbers
    that go on after the last number of the SET clause.  On [users] in
    positional mode the text is [UPDATE "users" set deleted_at = $1 WHERE id = $2]. *)
Theorem soft_delete_sets_deleted_at_and_filters_on_keys
        (t : DbTableMeta) (namedParams : bool)
        (H : 1 <= PrimaryKeyCount t)
        (Hd : exists col, In col (Columns t)
                          /\ (Name col = "deleted_at" \/ Name col = "DeletedAt")) :
  GenerateSoftDeleteSQL t namedParams
  = ("UPDATE " ++ dquote ++ TableName t ++ dquote ++ " set"
       ++ String.concat ","
            (map (softDelete_set_term namedParams)
                 (number_from 1 (filter is_deleted_at (Columns t))))
       ++ " WHERE"
       ++ glue (map (softDelete_where_term namedParams)
                    (number_from
                       (1 + Z.of_nat (List.length (filter is_deleted_at (Columns t))))
                       (filter IsPrimaryKey (Columns t)))),
     None)
  /\ (forall col, In col (filter is_deleted_at (Columns t))
                  <-> In col (Columns t)
                      /\ (Name col = "deleted_at" \/ Name col = "DeletedAt"))
  /\ (forall n col,
        softDelete_set_term namedParams (n, col)
        = " " ++ Name col ++ " = "
            ++ (if namedParams then "@upd_" ++ Name col ++ "_" ++ fmt_d n
                else "$" ++ fmt_d n))
  /\ (forall n col,
        softDelete_where_term namedParams (n, col)
        = " " ++ Name col ++ " = "
            ++ (if namedParams then "@" ++ Name col else "$" ++ fmt_d n))
  /\ GenerateSoftDeleteSQL users false
     = ("UPDATE " ++ dquote ++ "users" ++ dquote
          ++ " set deleted_at = $1 WHERE id = $2", None).
Proof.
  assert (Hin : forall col, In col (filter is_deleted_at (Columns t))
                            <-> In col (Columns t)
                                /\ (Name col = "deleted_at" \/ Name col = "DeletedAt")).
  { intros col. now rewrite filter_In, is_deleted_at_name. }
  split; [|split; [exact Hin | repeat split]].
  rewrite GenerateSoftDeleteSQL_unfold by assumption.
  destruct Hd as (col & Hd). apply Hin in Hd.
  destruct (filter is_deleted_at (Columns t)) as [|c r] eqn:E; [destruct Hd|].
  replace (1 + Z.of_nat (List.length (c :: r)) =? 1) with false; [reflexivity|].
  symmetry. apply Z.eqb_neq. simpl List.length. lia.
Qed.

Lemma soft_delete_sets_deleted_at_and_filters_on_keys_witness :
  GenerateSoftDeleteSQL users true
  = ("UPDATE " ++ dquote ++ "users" ++ dquote
       ++ " set deleted_at = @upd_deleted_at_1 WHERE id = @id", None).
Proof.
  assert (Hk : 1 <= PrimaryKeyCount users) by (vm_compute; discriminate).
  assert (Hd : exists col, In col (Columns users)
                           /\ (Name col = "deleted_at" \/ Name col = "DeletedAt")).
  { exists (mkColumn "deleted_at" "timestamptz" false false).
    simpl. split; [right; right; left; reflexivity | left; reflexivity]. }
  exact (proj1 (soft_delete_sets_deleted_at_and_filters_on_keys users true Hk Hd)).
Defined.

(** C5, at a table with two primary keys: the WHERE clause of soft delete
    names both keys in table order, and nothing is written between the two
    comparisons. *)
Theorem soft_delete_two_keys_writes_no_AND :
  GenerateSoftDeleteSQL memberships false
  = ("UPDATE " ++ dquote ++ "memberships" ++ dquote
       ++ " set DeletedAt = $1 WHERE user_id = $2 group_id = $3", None)
  /\ GenerateSoftDeleteSQL memberships true
     = ("UPDATE " ++ dquote ++ "memberships" ++ dquote
          ++ " set DeletedAt = @upd_DeletedAt_1 WHERE user_id = @user_id group_id = @group_id",
        None).
Proof. split; reflexivity. Qed.

(** C6: on a table with a primary key, soft delete returns the empty string
    and the no-deleted-at error exactly when no column is named [deleted_at]
    or [DeletedAt]; the text of that error contains the table name; and no
    other generator returns that error, on any table. *)
Theorem soft_delete_fails_iff_no_deleted_at_column
        (t : DbTableMeta) (namedParams : bool)
        (H : 1 <= PrimaryKeyCount t) :
  (GenerateSoftDeleteSQL t namedParams
   = (EmptyString, NoDeletedAtColumnError (TableName t))
   <-> (forall col, In col (Columns t) ->
                    Name col <> "deleted_at" /\ Name col <> "DeletedAt"))
  /\ (forall msg, NoDeletedAtColumnError (TableName t) = Some msg ->
                  Contains msg (TableName t))
  /\ (forall (t' : DbTableMeta) (named' : bool) (name : string),
        snd (GenerateHardDeleteSQL t' named') <> NoDeletedAtColumnError name
        /\ snd (GenerateUpdateSQL t' named') <> NoDeletedAtColumnError name
        /\ snd (GenerateInsertSQL t' named') <> NoDeletedAtColumnError name
        /\ snd (GenerateSelectOneSQL t' named') <> NoDeletedAtColumnError name
        /\ snd (GenerateSelectMultiSQL t' named') <> NoDeletedAtColumnError name
        /\ snd (GenerateSelectAllSQL t') <> NoDeletedAtColumnError name).
Proof.
  split; [|split].
  - rewrite GenerateSoftDeleteSQL_unfold by assumption.
    rewrite <- no_deleted_at_column.
    destruct (filter is_deleted_at (Columns t)) as [|c r].
    + simpl. split; reflexivity.
    + replace (1 + Z.of_nat (List.length (c :: r)) =? 1) with false
        by (symmetry; apply Z.eqb_neq; simpl List.length; lia).
      split; discriminate.
  - intros msg E. injection E as <-.
    exact (Contains_intro "table " (TableName t)
             " does not have a deleted at column, cannot generate sql").
  - intros t' named' name.
    repeat split; eapply nil_or_NoPrimaryKeyError_not_NoDeletedAt.
    + apply GenerateHardDeleteSQL_error.
    + apply GenerateUpdateSQL_error.
    + apply GenerateInsertSQL_error.
    + apply GenerateSelectOneSQL_error.
    + apply GenerateSelectMultiSQL_error.
    + apply GenerateSelectAllSQL_error.
Qed.

Lemma soft_delete_fails_iff_no_deleted_at_column_witness :
  GenerateSoftDeleteSQL events false
  = (EmptyString, NoDeletedAtColumnError "events").
Proof.
  assert (Hk : 1 <= PrimaryKeyCount events) by (vm_compute; discriminate).
  apply (proj1 (soft_delete_fails_iff_no_deleted_at_column events false Hk)).
  simpl. intros col [<- | [<- | [<- | []]]]; split; discriminate.
Defined.

(** ** Hard delete and update *)

(** C2, at the table [t] whose two columns [a] and [b] are its primary key:
    hard delete in named mode writes the two comparisons with no [AND]
    between them, because [addedKey < primaryCnt] is tested after [addedKey]
    has been incremented; the text with [AND] is not the one returned. *)
Theorem hard_delete_two_keys_writes_no_AND :
  GenerateHardDeleteSQL t_ab true
  = ("DELETE FROM " ++ dquote ++ "t" ++ dquote ++ " where a = @a_1 b = @b_2", None)
  /\ GenerateHardDeleteSQL t_ab true
     <> ("DELETE FROM " ++ dquote ++ "t" ++ dquote
           ++ " where a = @a_1 AND b = @b_2", None).
Proof. split; [reflexivity | vm_compute; discriminate]. Qed.

(** C7, as the specification words it, does not hold: [users] has two
    columns outside its primary key, and in positional mode the placeholder of
    its first primary key is [$4], not [$<1+2>]. *)
Lemma update_where_offset_is_not_the_non_key_count :
  GenerateUpdateSQL users false
  = ("UPDATE " ++ dquote ++ "users" ++ dquote
       ++ " SET name = $1, deleted_at = $2 WHERE id = $4", None)
  /\ GenerateUpdateSQL users false
     <> ("UPDATE " ++ dquote ++ "users" ++ dquote
           ++ " SET name = $1, deleted_at = $2 WHERE id = $"
           ++ fmt_d (1 + Z.of_nat (List.length (NonPrimaryKeyNames users))),
         None).
Proof. split; [reflexivity | vm_compute; discriminate]. Qed.

(** C7, as the code has it: on a table with a primary key and [N] columns
    outside it, update in positional mode numbers the SET placeholders [$1]
    to [$N] over those columns in table order, and gives the [n]-th primary
    key of the WHERE clause the placeholder [$<2n+N>], the sum of [addedKey],
    which is [n], and of the running [setCol], which is [N+n]; in named mode
    the SET placeholders are [@<colname>] and the WHERE placeholders
    [@where_<colname>]. *)
Theorem update_numbers_keys_by_both_running_counters
        (t : DbTableMeta) (namedParams : bool)
        (H : 1 <= PrimaryKeyCount t) :
  GenerateUpdateSQL t namedParams
  = ("UPDATE " ++ dquote ++ TableName t ++ dquote ++ " SET"
       ++ String.concat ","
            (map (update_set_term namedParams)
                 (number_from 1 (filter (fun col => negb (IsPrimaryKey col))
                                        (Columns t))))
       ++ " WHERE"
       ++ glue (map (update_where_term namedParams (PrimaryKeyCount t)
                       (Z.of_nat (List.length (NonPrimaryKeyNames t))))
                    (number_from 1 (filter IsPrimaryKey (Columns t)))),
     None)
  /\ Z.of_nat (List.length (NonPrimaryKeyNames t))
     = Z.of_nat (List.length (filter (fun col => negb (IsPrimaryKey col))
                                     (Columns t)))
  /\ (forall p,
        In p (number_from 1 (filter (fun col => negb (IsPrimaryKey col))
                                    (Columns t))) ->
        1 <= fst p
        /\ nth_error (filter (fun col => negb (IsPrimaryKey col)) (Columns t))
                     (Z.to_nat (fst p - 1)) = Some (snd p)
        /\ update_set_term namedParams p
           = " " ++ Name (snd p) ++ " = "
               ++ (if namedParams then "@" ++ Name (snd p)
                   else "$" ++ fmt_d (fst p)))
  /\ (forall p,
        In p (number_from 1 (filter IsPrimaryKey (Columns t))) ->
        1 <= fst p
        /\ nth_error (filter IsPrimaryKey (Columns t))
                     (Z.to_nat (fst p - 1)) = Some (snd p)
        /\ update_where_term namedParams (PrimaryKeyCount t)
                             (Z.of_nat (List.length (NonPrimaryKeyNames t))) p
           = " " ++ Name (snd p) ++ " = "
               ++ (if namedParams then "@where_" ++ Name (snd p)
                   else "$" ++ fmt_d (2 * fst p
                                      + Z.of_nat (List.length (NonPrimaryKeyNames t))))
               ++ (if fst p + 1 <? PrimaryKeyCount t then " AND" else EmptyString)).
Proof.
  split; [|split; [|split]].
  - rewrite NonPrimaryKeyNames_map, length_map.
    now apply GenerateUpdateSQL_text.
  - now rewrite NonPrimaryKeyNames_map, length_map.
  - intros p Hin. destruct (In_number_from _ _ _ Hin) as [Hle Hnth].
    repeat split; assumption.
  - intros p Hin. destruct (In_number_from _ _ _ Hin) as [Hle Hnth].
    repeat split; assumption.
Qed.

Lemma update_numbers_keys_by_both_running_counters_witness :
  GenerateUpdateSQL orders false
  = ("UPDATE " ++ dquote ++ "orders" ++ dquote
       ++ " SET serial = $1, total = $2 WHERE region = $4 number = $6", None).
Proof.
  assert (Hk : 1 <= PrimaryKeyCount orders) by (vm_compute; discriminate).
  exact (proj1 (update_numbers_keys_by_both_running_counters orders false Hk)).
Defined.

(** C10, as the specification words it, does not hold: in a table without
    columns every column is a primary key, and update fails on it. *)
Lemma update_fails_on_table_without_columns :
  (forall col, In col (Columns no_columns) -> IsPrimaryKey col = true)
  /\ GenerateUpdateSQL no_columns false = (EmptyString, NoPrimaryKeyError "empty")
  /\ snd (GenerateUpdateSQL no_columns false) <> None.
Proof.
  split; [intros col [] | split; [reflexivity | discriminate]].
Qed.

(** C10, as the code has it: on a table that has a column and whose columns
    are all primary keys, update succeeds; nothing is written between [SET]
    and [WHERE], and the comparisons of the WHERE clause follow, one per
    column. *)
Theorem update_of_all_key_table_has_empty_SET
        (t : DbTableMeta) (namedParams : bool)
        (Hne : Columns t <> [])
        (Hall : forall col, In col (Columns t) -> IsPrimaryKey col = true) :
  GenerateUpdateSQL t namedParams
  = ("UPDATE " ++ dquote ++ TableName t ++ dquote ++ " SET WHERE"
       ++ glue (map (update_where_term namedParams (PrimaryKeyCount t) 0)
                    (number_from 1 (Columns t))),
     None)
  /\ nonPkColumns (Columns t) = []
  /\ List.length (map (update_where_term namedParams (PrimaryKeyCount t) 0)
                      (number_from 1 (Columns t)))
     = List.length (Columns t).
Proof.
  assert (Hpk : pkColumns (Columns t) = Columns t) by (apply filter_all, Hall).
  assert (Hnon : nonPkColumns (Columns t) = []) by (apply filter_none, Hall).
  assert (Hk : 1 <= PrimaryKeyCount t).
  { rewrite PrimaryKeyCount_length, Hpk.
    destruct (Columns t); [contradiction | simpl List.length; lia]. }
  split; [|split].
  - rewrite GenerateUpdateSQL_text by assumption.
    rewrite Hpk, Hnon. cbn [number_from map String.concat List.length Z.of_nat].
    reflexivity.
  - exact Hnon.
  - now rewrite length_map, number_from_length.
Qed.

Lemma update_of_all_key_table_has_empty_SET_witness :
  GenerateUpdateSQL t_ab false
  = ("UPDATE " ++ dquote ++ "t" ++ dquote ++ " SET WHERE a = $2 b = $4", None).
Proof.
  assert (Hne : Columns t_ab <> []) by (simpl; discriminate).
  assert (Hall : forall col, In col (Columns t_ab) -> IsPrimaryKey col = true).
  { simpl. intros col [<- | [<- | []]]; reflexivity. }
  exact (proj1 (update_of_all_key_table_has_empty_SET t_ab false Hne Hall)).
Defined.

(** * Further properties of the package *)

(** ** Key inspection helpers *)

(** X1: [PrimaryKeyNames] returns the names of the primary-key columns and
    [NonPrimaryKeyNames] the names of the other columns, each in table
    order. *)
Theorem key_names_follow_table_order (t : DbTableMeta) :
  PrimaryKeyNames t = map Name (filter IsPrimaryKey (Columns t))
  /\ NonPrimaryKeyNames t
     = map Name (filter (fun col => negb (IsPrimaryKey col)) (Columns t)).
Proof.
  split.
  - apply PrimaryKeyNames_map.
  - apply NonPrimaryKeyNames_map.
Qed.

Lemma filter_partition_length {A : Type} (f : A -> bool) (l : list A) :
  (List.length (filter f l) + List.length (filter (fun x => negb (f x)) l))%nat
  = List.length l.
Proof.
  induction l as [|x r IH]; simpl; [reflexivity|].
  destruct (f x); simpl; lia.
Qed.

Lemma PrimaryKeyCount_nonneg (t : DbTableMeta) : 0 <= PrimaryKeyCount t.
Proof. rewrite PrimaryKeyCount_length. lia. Qed.

Lemma has_key_iff (t : DbTableMeta) :
  1 <= PrimaryKeyCount t
  <-> exists col, In col (Columns t) /\ IsPrimaryKey col = true.
Proof.
  rewrite PrimaryKeyCount_length. unfold pkColumns. split.
  - intros H.
    destruct (filter IsPrimaryKey (Columns t)) as [|c r] eqn:E;
      [simpl in H; lia|].
    exists c. apply filter_In. rewrite E. now left.
  - intros (col & Hin & Hpk).
    assert (Hf : In col (filter IsPrimaryKey (Columns t)))
      by (apply filter_In; auto).
    destruct (filter IsPrimaryKey (Columns t));
      [destruct Hf | simpl List.length; lia].
Qed.

(** X2: [PrimaryKeyCount] is the number of names [PrimaryKeyNames] returns;
    with the number of names [NonPrimaryKeyNames] returns it adds up to the
    number of columns; and it is [0] exactly when no column is a primary
    key. *)
Theorem PrimaryKeyCount_agrees_with_names (t : DbTableMeta) :
  PrimaryKeyCount t = Z.of_nat (List.length (PrimaryKeyNames t))
  /\ PrimaryKeyCount t + Z.of_nat (List.length (NonPrimaryKeyNames t))
     = Z.of_nat (List.length (Columns t))
  /\ (PrimaryKeyCount t = 0
      <-> forall col, In col (Columns t) -> IsPrimaryKey col = false).
Proof.
  rewrite PrimaryKeyNames_map, NonPrimaryKeyNames_map, !length_map.
  rewrite PrimaryKeyCount_length. unfold pkColumns, nonPkColumns.
  split; [reflexivity | split].
  - rewrite <- Nat2Z.inj_add, filter_partition_length. reflexivity.
  - split.
    + intros H0 col Hin. destruct (IsPrimaryKey col) eqn:E; [|reflexivity].
      assert (Hf : In col (filter IsPrimaryKey (Columns t)))
        by (apply filter_In; auto).
      destruct (filter IsPrimaryKey (Columns t));
        [destruct Hf | simpl List.length in H0; lia].
    + intros Hall.
      destruct (filter IsPrimaryKey (Columns t)) as [|c r] eqn:E;
        [reflexivity|].
      assert (Hf : In c (filter IsPrimaryKey (Columns t)))
        by (rewrite E; now left).
      apply filter_In in Hf. destruct Hf as [Hin Hpk].
      rewrite (Hall c Hin) in Hpk. discriminate.
Qed.

(** ** Success and failure of the generators *)

Lemma GenerateInsertSQL_text (t : DbTableMeta) (namedParams : bool) :
  1 <= PrimaryKeyCount t ->
  GenerateInsertSQL t namedParams
  = ("INSERT INTO " ++ dquote ++ TableName t ++ dquote ++ " ("
       ++ String.concat ", "
            (map insert_name (indexed notAutoIncrement 0 (Columns t)))
       ++ ") values ( "
       ++ String.concat ", "
            (map (insert_value namedParams) (indexed notAutoIncrement 0 (Columns t)))
       ++ " )",
     None).
Proof.
  intros H. unfold GenerateInsertSQL.
  rewrite (at_least_one_key t H), insert_names_loop.
  cbv beta iota zeta. rewrite insert_values_loop.
  cbv beta iota zeta. now rewrite !append_assoc.
Qed.

Lemma GenerateSelectOneSQL_text (t : DbTableMeta) (namedParams : bool) :
  1 <= PrimaryKeyCount t ->
  GenerateSelectOneSQL t namedParams
  = ("SELECT * FROM " ++ dquote ++ TableName t ++ dquote ++ " WHERE"
       ++ String.concat " AND "
            (map (selectOne_term namedParams) (indexed IsPrimaryKey 0 (Columns t))),
     None).
Proof.
  intros H. unfold GenerateSelectOneSQL.
  rewrite (at_least_one_key t H), selectOne_loop.
  cbv beta iota zeta. now rewrite !append_assoc.
Qed.

Lemma GenerateSelectMultiSQL_text (t : DbTableMeta) (namedParams : bool) :
  1 <= PrimaryKeyCount t ->
  GenerateSelectMultiSQL t namedParams
  = ("SELECT * FROM " ++ dquote ++ TableName t ++ dquote ++ " WHERE"
       ++ String.concat " AND "
            (map (selectMulti_term namedParams) (indexed IsPrimaryKey 0 (Columns t))),
     None).
Proof.
  intros H. unfold GenerateSelectMultiSQL.
  rewrite (at_least_one_key t H), selectMulti_loop.
  cbv beta iota zeta. now rewrite !append_assoc.
Qed.

Lemma GenerateSelectAllSQL_text (t : DbTableMeta) :
  1 <= PrimaryKeyCount t ->
  GenerateSelectAllSQL t
  = ("SELECT * FROM " ++ dquote ++ TableName t ++ dquote, None).
Proof.
  intros H. unfold GenerateSelectAllSQL. now rewrite (at_least_one_key t H).
Qed.

Lemma has_deleted_at_iff (t : DbTableMeta) :
  (1 + Z.of_nat (List.length (filter is_deleted_at (Columns t))) =? 1) = false
  <-> exists col, In col (Columns t)
                  /\ (Name col = "deleted_at" \/ Name col = "DeletedAt").
Proof.
  rewrite Z.eqb_neq. split.
  - intros H.
    destruct (filter is_deleted_at (Columns t)) as [|c r] eqn:E;
      [simpl in H; lia|].
    assert (Hf : In c (filter is_deleted_at (Columns t))) by (rewrite E; now left).
    apply filter_In in Hf. destruct Hf as [Hin Hd].
    exists c. split; [exact Hin | now apply is_deleted_at_name].
  - intros (col & Hin & Hd).
    assert (Hf : In col (filter is_deleted_at (Columns t))).
    { apply filter_In. split; [exact Hin | now apply is_deleted_at_name]. }
    destruct (filter is_deleted_at (Columns t));
      [destruct Hf | simpl List.length; lia].
Qed.

Lemma text_or_error_iff (r : string * error) :
  text_or_error r -> (fst r = EmptyString <-> snd r <> None).
Proof.
  intros [[Ht He] | [Ht He]]; split; intros H; try assumption.
  - contradiction.
  - rewrite He in H. now contradiction H.
Qed.

Ltac by_guard G t text :=
  unfold text_or_error;
  destruct (Z.eq_dec (PrimaryKeyCount t) 0) as [E | E];
  [ right; unfold G; rewrite E; simpl; split; [reflexivity | discriminate]
  | left;
    assert (Hk : 1 <= PrimaryKeyCount t)
      by (pose proof (PrimaryKeyCount_nonneg t); lia);
    rewrite text by exact Hk;
    simpl; split; [discriminate | reflexivity] ].

Lemma GenerateHardDeleteSQL_outcome (t : DbTableMeta) (namedParams : bool) :
  text_or_error (GenerateHardDeleteSQL t namedParams).
Proof. by_guard GenerateHardDeleteSQL t GenerateHardDeleteSQL_text. Qed.

Lemma GenerateUpdateSQL_outcome (t : DbTableMeta) (namedParams : bool) :
  text_or_error (GenerateUpdateSQL t namedParams).
Proof. by_guard GenerateUpdateSQL t GenerateUpdateSQL_text. Qed.

Lemma GenerateInsertSQL_outcome (t : DbTableMeta) (namedParams : bool) :
  text_or_error (GenerateInsertSQL t namedParams).
Proof. by_guard GenerateInsertSQL t GenerateInsertSQL_text. Qed.

Lemma GenerateSelectOneSQL_outcome (t : DbTableMeta) (namedParams : bool) :
  text_or_error (GenerateSelectOneSQL t namedParams).
Proof. by_guard GenerateSelectOneSQL t GenerateSelectOneSQL_text. Qed.

Lemma GenerateSelectMultiSQL_outcome (t : DbTableMeta) (namedParams : bool) :
  text_or_error (GenerateSelectMultiSQL t namedParams).
Proof. by_guard GenerateSelectMultiSQL t GenerateSelectMultiSQL_text. Qed.

Lemma GenerateSelectAllSQL_outcome (t : DbTableMeta) :
  text_or_error (GenerateSelectAllSQL t).
Proof. by_guard GenerateSelectAllSQL t GenerateSelectAllSQL_text. Qed.

Lemma GenerateSoftDeleteSQL_outcome (t : DbTableMeta) (namedParams : bool) :
  text_or_error (GenerateSoftDeleteSQL t namedParams).
Proof.
  unfold text_or_error.
  destruct (Z.eq_dec (PrimaryKeyCount t) 0) as [E | E].
  - right. unfold GenerateSoftDeleteSQL. rewrite E. simpl.
    split; [reflexivity | discriminate].
  - assert (Hk : 1 <= PrimaryKeyCount t)
      by (pose proof (PrimaryKeyCount_nonneg t); lia).
    rewrite GenerateSoftDeleteSQL_unfold by exact Hk.
    destruct (1 + Z.of_nat (List.length (filter is_deleted_at (Columns t))) =? 1).
    + right. simpl. split; [reflexivity | discriminate].
    + left. simpl. split; [discriminate | reflexivity].
Qed.

(** X3: whatever the table and the mode, each of the seven generators
    returns the empty string exactly when it returns an error: a failure
    carries no partial text, and a success is never the empty text. *)
Theorem text_is_empty_exactly_on_failure (t : DbTableMeta) (namedParams : bool) :
  (fst (GenerateHardDeleteSQL t namedParams) = EmptyString
   <-> snd (GenerateHardDeleteSQL t namedParams) <> None)
  /\ (fst (GenerateSoftDeleteSQL t namedParams) = EmptyString
      <-> snd (GenerateSoftDeleteSQL t namedParams) <> None)
  /\ (fst (GenerateUpdateSQL t namedParams) = EmptyString
      <-> snd (GenerateUpdateSQL t namedParams) <> None)
  /\ (fst (GenerateInsertSQL t namedParams) = EmptyString
      <-> snd (GenerateInsertSQL t namedParams) <> None)
  /\ (fst (GenerateSelectOneSQL t namedParams) = EmptyString
      <-> snd (GenerateSelectOneSQL t namedParams) <> None)
  /\ (fst (GenerateSelectMultiSQL t namedParams) = EmptyString
      <-> snd (GenerateSelectMultiSQL t namedParams) <> None)
  /\ (fst (GenerateSelectAllSQL t) = EmptyString
      <-> snd (GenerateSelectAllSQL t) <> None).
Proof.
  split; [apply text_or_error_iff, GenerateHardDeleteSQL_outcome|].
  split; [apply text_or_error_iff, GenerateSoftDeleteSQL_outcome|].
  split; [apply text_or_error_iff, GenerateUpdateSQL_outcome|].
  split; [apply text_or_error_iff, GenerateInsertSQL_outcome|].
  split; [apply text_or_error_iff, GenerateSelectOneSQL_outcome|].
  split; [apply text_or_error_iff, GenerateSelectMultiSQL_outcome|].
  apply text_or_error_iff, GenerateSelectAllSQL_outcome.
Qed.

Ltac success_by_guard G t text :=
  destruct (Z.eq_dec (PrimaryKeyCount t) 0) as [E | E];
  [ unfold G; rewrite E; simpl; split; [discriminate | lia]
  | assert (Hk : 1 <= PrimaryKeyCount t)
      by (pose proof (PrimaryKeyCount_nonneg t); lia);
    rewrite text by exact Hk;
    simpl; split; [intros _; exact Hk | reflexivity] ].

Lemma GenerateHardDeleteSQL_success (t : DbTableMeta) (namedParams : bool) :
  snd (GenerateHardDeleteSQL t namedParams) = None <-> 1 <= PrimaryKeyCount t.
Proof. success_by_guard GenerateHardDeleteSQL t GenerateHardDeleteSQL_text. Qed.

Lemma GenerateUpdateSQL_success (t : DbTableMeta) (namedParams : bool) :
  snd (GenerateUpdateSQL t namedParams) = None <-> 1 <= PrimaryKeyCount t.
Proof. success_by_guard GenerateUpdateSQL t GenerateUpdateSQL_text. Qed.

Lemma GenerateInsertSQL_success (t : DbTableMeta) (namedParams : bool) :
  snd (GenerateInsertSQL t namedParams) = None <-> 1 <= PrimaryKeyCount t.
Proof. success_by_guard GenerateInsertSQL t GenerateInsertSQL_text. Qed.

Lemma GenerateSelectOneSQL_success (t : DbTableMeta) (namedParams : bool) :
  snd (GenerateSelectOneSQL t namedParams) = None <-> 1 <= PrimaryKeyCount t.
Proof. success_by_guard GenerateSelectOneSQL t GenerateSelectOneSQL_text. Qed.

Lemma GenerateSelectMultiSQL_success (t : DbTableMeta) (namedParams : bool) :
  snd (GenerateSelectMultiSQL t namedParams) = None <-> 1 <= PrimaryKeyCount t.
Proof. success_by_guard GenerateSelectMultiSQL t GenerateSelectMultiSQL_text. Qed.

Lemma GenerateSelectAllSQL_success (t : DbTableMeta) :
  snd (GenerateSelectAllSQL t) = None <-> 1 <= PrimaryKeyCount t.
Proof. success_by_guard GenerateSelectAllSQL t GenerateSelectAllSQL_text. Qed.

Lemma GenerateSoftDeleteSQL_success (t : DbTableMeta) (namedParams : bool) :
  snd (GenerateSoftDeleteSQL t namedParams) = None
  <-> 1 <= PrimaryKeyCount t
      /\ (1 + Z.of_nat (List.length (filter is_deleted_at (Columns t))) =? 1) = false.
Proof.
  destruct (Z.eq_dec (PrimaryKeyCount t) 0) as [E | E].
  - unfold GenerateSoftDeleteSQL. rewrite E. simpl.
    split; [discriminate | intros [H _]; lia].
  - assert (Hk : 1 <= PrimaryKeyCount t)
      by (pose proof (PrimaryKeyCount_nonneg t); lia).
    rewrite GenerateSoftDeleteSQL_unfold by exact Hk.
    destruct (1 + Z.of_nat (List.length (filter is_deleted_at (Columns t))) =? 1);
      simpl.
    + split; [discriminate | intros [_ H]; discriminate].
    + split; [intros _; split; [exact Hk | reflexivity] | reflexivity].
Qed.

(** X4: in both modes, hard delete, update, insert, select-one, select-multi
    and select-all return a nil error exactly when some column of the table
    is a primary key; soft delete returns a nil error exactly when, besides,
    some column is named [deleted_at] or [DeletedAt]. *)
Theorem generators_succeed_exactly_on_keyed_tables
        (t : DbTableMeta) (namedParams : bool) :
  (snd (GenerateHardDeleteSQL t namedParams) = None <-> has_primary_key t)
  /\ (snd (GenerateUpdateSQL t namedParams) = None <-> has_primary_key t)
  /\ (snd (GenerateInsertSQL t namedParams) = None <-> has_primary_key t)
  /\ (snd (GenerateSelectOneSQL t namedParams) = None <-> has_primary_key t)
  /\ (snd (GenerateSelectMultiSQL t namedParams) = None <-> has_primary_key t)
  /\ (snd (GenerateSelectAllSQL t) = None <-> has_primary_key t)
  /\ (snd (GenerateSoftDeleteSQL t namedParams) = None
      <-> has_primary_key t /\ has_deleted_at_column t).
Proof.
  unfold has_primary_key, has_deleted_at_column.
  rewrite <- has_key_iff, <- has_deleted_at_iff.
  split; [apply GenerateHardDeleteSQL_success|].
  split; [apply GenerateUpdateSQL_success|].
  split; [apply GenerateInsertSQL_success|].
  split; [apply GenerateSelectOneSQL_success|].
  split; [apply GenerateSelectMultiSQL_success|].
  split; [apply GenerateSelectAllSQL_success|].
  apply GenerateSoftDeleteSQL_success.
Qed.

(** ** Hard delete and update *)

(** X5: on a table with a primary key, hard delete returns [DELETE FROM
    "<table>" where] followed by one comparison per primary-key column, in
    table order; the [n]-th comparison is [ <name> = $<n>] in positional mode
    and [ <name> = @<name>_<n>] in named mode, and [ AND] follows it exactly
    when [n + 1] is below the number of primary keys. *)
Theorem hard_delete_text (t : DbTableMeta) (namedParams : bool)
        (H : 1 <= PrimaryKeyCount t) :
  GenerateHardDeleteSQL t namedParams
  = ("DELETE FROM " ++ dquote ++ TableName t ++ dquote ++ " where"
       ++ glue (map (hardDelete_term namedParams (PrimaryKeyCount t))
                    (number_from 1 (filter IsPrimaryKey (Columns t)))),
     None)
  /\ (forall n col,
        hardDelete_term namedParams (PrimaryKeyCount t) (n, col)
        = " " ++ Name col ++ " = "
            ++ (if namedParams then "@" ++ Name col ++ "_" ++ fmt_d n
                else "$" ++ fmt_d n)
            ++ (if n + 1 <? PrimaryKeyCount t then " AND" else EmptyString)).
Proof.
  split; [|reflexivity]. now apply GenerateHardDeleteSQL_text.
Qed.

Lemma hard_delete_text_witness :
  GenerateHardDeleteSQL ledger false
  = ("DELETE FROM " ++ dquote ++ "ledger" ++ dquote
       ++ " where year = $1 AND book = $2 page = $3", None).
Proof.
  assert (Hk : 1 <= PrimaryKeyCount ledger) by (vm_compute; discriminate).
  exact (proj1 (hard_delete_text ledger false Hk)).
Defined.

(** X6: on a table with a primary key, update returns [UPDATE "<table>" SET],
    then the columns outside the primary key in table order, separated by
    commas, the [n]-th as [ <name> = $<n>] or [ <name> = @<name>], then
    [ WHERE], then one comparison per primary-key column in table order.  With
    [N] the number of names [NonPrimaryKeyNames] returns, the [n]-th
    comparison is
    [ <name> = $<2n+N>] in positional mode and [ <name> = @where_<name>] in
    named mode, and [ AND] follows it exactly when [n + 1] is below the number
    of primary keys. *)
Theorem update_text (t : DbTableMeta) (namedParams : bool)
        (H : 1 <= PrimaryKeyCount t) :
  GenerateUpdateSQL t namedParams
  = ("UPDATE " ++ dquote ++ TableName t ++ dquote ++ " SET"
       ++ String.concat ","
            (map (update_set_term namedParams)
                 (number_from 1 (filter (fun col => negb (IsPrimaryKey col))
                                        (Columns t))))
       ++ " WHERE"
       ++ glue (map (update_where_term namedParams (PrimaryKeyCount t)
                       (Z.of_nat (List.length (NonPrimaryKeyNames t))))
                    (number_from 1 (filter IsPrimaryKey (Columns t)))),
     None)
  /\ (forall n col,
        update_set_term namedParams (n, col)
        = " " ++ Name col ++ " = "
            ++ (if namedParams then "@" ++ Name col else "$" ++ fmt_d n))
  /\ (forall n N col,
        update_where_term namedParams (PrimaryKeyCount t) N (n, col)
        = " " ++ Name col ++ " = "
            ++ (if namedParams then "@where_" ++ Name col
                else "$" ++ fmt_d (2 * n + N))
            ++ (if n + 1 <? PrimaryKeyCount t then " AND" else EmptyString)).
Proof.
  split; [|split; reflexivity].
  rewrite NonPrimaryKeyNames_map, length_map.
  now apply GenerateUpdateSQL_text.
Qed.

Lemma update_text_witness :
  GenerateUpdateSQL ledger false
  = ("UPDATE " ++ dquote ++ "ledger" ++ dquote
       ++ " SET note = $1 WHERE year = $3 AND book = $5 page = $7", None).
Proof.
  assert (Hk : 1 <= PrimaryKeyCount ledger) by (vm_compute; discriminate).
  exact (proj1 (update_text ledger false Hk)).
Defined.

(** X7: on a table with exactly one primary-key column [pk], the WHERE
    clause of hard delete and of update is the single comparison on [pk],
    with no [AND]: hard delete writes [$1] or [@<pk>_1], and update, whose SET
    clause has [N] columns, writes [$<N+2>] or [@where_<pk>]. *)
Theorem single_key_where_clause (t : DbTableMeta) (namedParams : bool)
        (pk : ColumnMeta)
        (H : filter IsPrimaryKey (Columns t) = [pk]) :
  GenerateHardDeleteSQL t namedParams
  = ("DELETE FROM " ++ dquote ++ TableName t ++ dquote ++ " where "
       ++ Name pk ++ " = "
       ++ (if namedParams then "@" ++ Name pk ++ "_1" else "$1"),
     None)
  /\ GenerateUpdateSQL t namedParams
     = ("UPDATE " ++ dquote ++ TableName t ++ dquote ++ " SET"
          ++ String.concat ","
               (map (update_set_term namedParams)
                    (number_from 1 (filter (fun col => negb (IsPrimaryKey col))
                                           (Columns t))))
          ++ " WHERE " ++ Name pk ++ " = "
          ++ (if namedParams then "@where_" ++ Name pk
              else "$" ++ fmt_d (Z.of_nat (List.length (NonPrimaryKeyNames t)) + 2)),
        None).
Proof.
  assert (Hc : PrimaryKeyCount t = 1).
  { rewrite PrimaryKeyCount_length. unfold pkColumns. now rewrite H. }
  assert (Hk : 1 <= PrimaryKeyCount t) by lia.
  split.
  - rewrite GenerateHardDeleteSQL_text by exact Hk.
    unfold pkColumns. rewrite H, Hc. unfold hardDelete_term.
    cbn [number_from map glue fst snd Z.add Z.ltb Z.compare Pos.add Pos.compare
         Pos.compare_cont].
    rewrite !append_nil_r. destruct namedParams; reflexivity.
  - rewrite GenerateUpdateSQL_text by exact Hk.
    rewrite NonPrimaryKeyNames_map, length_map.
    unfold pkColumns. rewrite H, Hc. unfold update_where_term.
    cbn [number_from map glue fst snd].
    replace (2 * 1 + Z.of_nat (List.length (nonPkColumns (Columns t))))
      with (Z.of_nat (List.length (nonPkColumns (Columns t))) + 2) by lia.
    change (1 + 1 <? 1) with false. cbv iota.
    rewrite !append_nil_r. destruct namedParams; reflexivity.
Qed.

Lemma single_key_where_clause_witness :
  GenerateHardDeleteSQL users false
  = ("DELETE FROM " ++ dquote ++ "users" ++ dquote ++ " where id = $1", None)
  /\ GenerateUpdateSQL users true
     = ("UPDATE " ++ dquote ++ "users" ++ dquote
          ++ " SET name = @name, deleted_at = @deleted_at WHERE id = @where_id",
        None).
Proof.
  split.
  - exact (proj1 (single_key_where_clause users false
                    (mkColumn "id" "int" true true) eq_refl)).
  - exact (proj2 (single_key_where_clause users true
                    (mkColumn "id" "int" true true) eq_refl)).
Defined.

(** ** Insert *)

Lemma indexed_none (sel : ColumnMeta -> bool) (i : Z) (cols : list ColumnMeta) :
  (forall col, In col cols -> sel col = false) -> indexed sel i cols = [].
Proof.
  intros Hall. apply (map_eq_nil snd). rewrite indexed_columns.
  induction cols as [|col cols IH]; simpl; [reflexivity|].
  rewrite (Hall col (or_introl eq_refl)). apply IH.
  intros c Hc. apply Hall. now right.
Qed.

(** X8: on a table with a primary key in which every column is
    auto-increment, insert succeeds in both modes with an empty column list
    and an empty VALUES list: [INSERT INTO "<table>" () values (  )]. *)
Theorem insert_of_auto_increment_only_table
        (t : DbTableMeta) (namedParams : bool)
        (H : 1 <= PrimaryKeyCount t)
        (Hall : forall col, In col (Columns t) -> IsAutoIncrement col = true) :
  GenerateInsertSQL t namedParams
  = ("INSERT INTO " ++ dquote ++ TableName t ++ dquote ++ " () values (  )", None).
Proof.
  rewrite GenerateInsertSQL_text by exact H.
  rewrite indexed_none.
  - reflexivity.
  - intros col Hin. unfold notAutoIncrement. now rewrite (Hall col Hin).
Qed.

Lemma insert_of_auto_increment_only_table_witness :
  GenerateInsertSQL counters true
  = ("INSERT INTO " ++ dquote ++ "counters" ++ dquote ++ " () values (  )", None).
Proof.
  assert (Hk : 1 <= PrimaryKeyCount counters) by (vm_compute; discriminate).
  apply (insert_of_auto_increment_only_table counters true Hk).
  simpl. intros col [<- | [<- | []]]; reflexivity.
Defined.

(** ** What the generators do not read *)

Lemma range_map {S : Type} (body : Z -> ColumnMeta -> S -> S)
      (g : ColumnMeta -> ColumnMeta) (i : Z) (cols : list ColumnMeta) (s : S) :
  (forall j col st, body j (g col) st = body j col st) ->
  range body i (map g cols) s = range body i cols s.
Proof.
  intros Hg. revert i s.
  induction cols as [|col cols IH]; intros i s; simpl; [reflexivity|].
  now rewrite Hg, IH.
Qed.

Lemma range_only_keys {S : Type} (body : Z -> ColumnMeta -> S -> S) :
  (forall j col st, IsPrimaryKey col = false -> body j col st = st) ->
  (forall j j' col st, body j col st = body j' col st) ->
  forall (cols : list ColumnMeta) (i i' : Z) (s : S),
    range body i (filter IsPrimaryKey cols) s = range body i' cols s.
Proof.
  intros Hskip Hidx cols.
  induction cols as [|col cols IH]; intros i i' s; simpl; [reflexivity|].
  destruct (IsPrimaryKey col) eqn:E; simpl.
  - rewrite (Hidx i i'). apply IH.
  - rewrite (Hskip i' col s E). apply IH.
Qed.

Ltac same_loops :=
  unfold PrimaryKeyCount; cbn [TableName Columns];
  repeat first
    [ rewrite range_map by (intros; reflexivity)
    | match goal with
      | |- context [match range ?b ?i (Columns ?t) ?s with pair _ _ => _ end] =>
          destruct (range b i (Columns t) s)
      end ];
  reflexivity.

(** X9: the declared type of a column is read by select-multi only: the
    other six generators return the same result on two views that differ in
    the declared types of their columns alone. *)
Theorem column_types_matter_to_select_multi_only
        (f : ColumnMeta -> string) (t : DbTableMeta) (namedParams : bool) :
  GenerateHardDeleteSQL (with_types f t) namedParams
  = GenerateHardDeleteSQL t namedParams
  /\ GenerateSoftDeleteSQL (with_types f t) namedParams
     = GenerateSoftDeleteSQL t namedParams
  /\ GenerateUpdateSQL (with_types f t) namedParams
     = GenerateUpdateSQL t namedParams
  /\ GenerateInsertSQL (with_types f t) namedParams
     = GenerateInsertSQL t namedParams
  /\ GenerateSelectOneSQL (with_types f t) namedParams
     = GenerateSelectOneSQL t namedParams
  /\ GenerateSelectAllSQL (with_types f t) = GenerateSelectAllSQL t.
Proof.
  unfold with_types.
  split; [unfold GenerateHardDeleteSQL; same_loops|].
  split; [unfold GenerateSoftDeleteSQL; same_loops|].
  split; [unfold GenerateUpdateSQL; same_loops|].
  split; [unfold GenerateInsertSQL; same_loops|].
  split; [unfold GenerateSelectOneSQL; same_loops|].
  unfold GenerateSelectAllSQL; same_loops.
Qed.

(** X10: the auto-increment flag of a column is read by insert only: the
    other six generators return the same result on two views that differ in
    the auto-increment flags of their columns alone. *)
Theorem auto_increment_matters_to_insert_only
        (f : ColumnMeta -> bool) (t : DbTableMeta) (namedParams : bool) :
  GenerateHardDeleteSQL (with_auto_increment f t) namedParams
  = GenerateHardDeleteSQL t namedParams
  /\ GenerateSoftDeleteSQL (with_auto_increment f t) namedParams
     = GenerateSoftDeleteSQL t namedParams
  /\ GenerateUpdateSQL (with_auto_increment f t) namedParams
     = GenerateUpdateSQL t namedParams
  /\ GenerateSelectOneSQL (with_auto_increment f t) namedParams
     = GenerateSelectOneSQL t namedParams
  /\ GenerateSelectMultiSQL (with_auto_increment f t) namedParams
     = GenerateSelectMultiSQL t namedParams
  /\ GenerateSelectAllSQL (with_auto_increment f t) = GenerateSelectAllSQL t.
Proof.
  unfold with_auto_increment.
  split; [unfold GenerateHardDeleteSQL; same_loops|].
  split; [unfold GenerateSoftDeleteSQL; same_loops|].
  split; [unfold GenerateUpdateSQL; same_loops|].
  split; [unfold GenerateSelectOneSQL; same_loops|].
  split; [unfold GenerateSelectMultiSQL; same_loops|].
  unfold GenerateSelectAllSQL; same_loops.
Qed.

Lemma PrimaryKeyCount_only_keys (t : DbTableMeta) :
  PrimaryKeyCount (only_keys t) = PrimaryKeyCount t.
Proof.
  unfold PrimaryKeyCount, only_keys. cbn [Columns].
  apply range_only_keys.
  - intros j col st E. now rewrite E.
  - reflexivity.
Qed.

(** X11: hard delete and select-all do not read the columns outside the
    primary key, nor the place of the key columns among the others: on the
    view that keeps the primary-key columns only they return what they
    return on the table. *)
Theorem hard_delete_reads_key_columns_only (t : DbTableMeta) (namedParams : bool) :
  GenerateHardDeleteSQL (only_keys t) namedParams
  = GenerateHardDeleteSQL t namedParams
  /\ GenerateSelectAllSQL (only_keys t) = GenerateSelectAllSQL t.
Proof.
  unfold GenerateHardDeleteSQL, GenerateSelectAllSQL.
  rewrite PrimaryKeyCount_only_keys.
  split; [|reflexivity].
  unfold only_keys. cbn [TableName Columns].
  rewrite (range_only_keys (hardDelete_body namedParams (PrimaryKeyCount t)))
    with (i' := 0).
  - reflexivity.
  - intros j col [buf k] E. unfold hardDelete_body. now rewrite E.
  - reflexivity.
Qed.

End dbmeta.
